(** * OCI LoadBalancer Ghost Hunter: the ghost classifier

    A shallow embedding of [OCILoadBalancerGhostHunter.analyze_load_balancer_health]
    (src/oci-loadbalancer-ghosthunter.py, lines 122-289) and of the status
    ladder it shares with [_get_display_status].

    The method receives a Python [dict] built by the scanner and reads it
    with [.get], [.items], [.values], [len], [in] and truthiness tests, all
    inside one [try] block whose handler returns a degraded verdict.  The
    embedding therefore has two layers:

    - a small universe of Python values ([pyval]) with exactly those
      operations, each raising the exception Python raises on a value of
      the wrong shape;
    - the records of the data model (load balancer, backend set, listener)
      with their encoding into [pyval], on which the scoring rules are
      stated.

    Python strings are modelled by [string]; [str.upper] is the ASCII
    upper-casing (the protocols the provider reports are ASCII).  Floats
    are not part of the universe. *)

From Stdlib Require Import ZArith List String Ascii Bool Lia DecimalString.
Import ListNotations.

Open Scope string_scope.
Open Scope Z_scope.

(** ** Python values *)

#[warnings="-register-all"]
Inductive pyval : Type :=
| PNone
| PBool (b : bool)
| PInt (n : Z)
| PStr (s : string)
| PList (l : list pyval)
| PDict (d : list (string * pyval)).

(** A [dict] with string keys, in insertion order. *)
Definition dict := list (string * pyval).

Definition type_name (v : pyval) : string :=
  match v with
  | PNone => "NoneType"
  | PBool _ => "bool"
  | PInt _ => "int"
  | PStr _ => "str"
  | PList _ => "list"
  | PDict _ => "dict"
  end.

(** The exceptions the method body can raise, by cause. *)
Inductive type_error : Type :=
| NoLen (ty : string)               (* len(x) on a value without length *)
| NotIterable (ty : string)         (* for ... in x *)
| NotContainer (ty : string)        (* y in x *)
| Unhashable (ty : string)          (* y in a_dict, y a list or a dict *)
| InStringLeftOperand (ty : string) (* y in a_str, y not a str *).

Inductive exn : Type :=
| AttributeError (ty attr : string)
| TypeError (cause : type_error).

(** ** The error monad of the [try] block *)

Inductive result (A : Type) : Type :=
| Ok (a : A)
| Raise (e : exn).

Arguments Ok {A} a.
Arguments Raise {A} e.

Definition bind {A B : Type} (c : result A) (k : A -> result B) : result B :=
  match c with
  | Ok a => k a
  | Raise e => Raise e
  end.

Notation "x <- c ;; k" := (bind c (fun x => k))
  (at level 61, c at next level, right associativity).

(** ** Primitive operations on Python values *)

(** [bool(v)], as used by [if v:], [not v] and [v or w]. *)
Definition truthy (v : pyval) : bool :=
  match v with
  | PNone => false
  | PBool b => b
  | PInt n => negb (n =? 0)
  | PStr s => negb (s =? "")%string
  | PList l => match l with [] => false | _ :: _ => true end
  | PDict d => match d with [] => false | _ :: _ => true end
  end.

Fixpoint dict_lookup (d : dict) (k : string) : option pyval :=
  match d with
  | [] => None
  | (k', v) :: rest => if (k' =? k)%string then Some v else dict_lookup rest k
  end.

(** [d.get(k, default)] on a value known to be a dict. *)
Definition dict_get (d : dict) (k : string) (default : pyval) : pyval :=
  match dict_lookup d k with
  | Some v => v
  | None => default
  end.

(** [o.get(k, default)] on an arbitrary value. *)
Definition py_get (o : pyval) (k : string) (default : pyval) : result pyval :=
  match o with
  | PDict d => Ok (dict_get d k default)
  | _ => Raise (AttributeError (type_name o) "get")
  end.

(** [o.items()]. *)
Definition py_items (o : pyval) : result (list (string * pyval)) :=
  match o with
  | PDict d => Ok d
  | _ => Raise (AttributeError (type_name o) "items")
  end.

(** [o.values()]. *)
Definition py_values (o : pyval) : result (list pyval) :=
  match o with
  | PDict d => Ok (map snd d)
  | _ => Raise (AttributeError (type_name o) "values")
  end.

Definition len {A : Type} (l : list A) : Z := Z.of_nat (List.length l).

(** [len(o)]. *)
Definition py_len (o : pyval) : result Z :=
  match o with
  | PStr s => Ok (Z.of_nat (String.length s))
  | PList l => Ok (len l)
  | PDict d => Ok (len d)
  | _ => Raise (TypeError (NoLen (type_name o)))
  end.

Fixpoint chars (s : string) : list pyval :=
  match s with
  | EmptyString => []
  | String c rest => PStr (String c EmptyString) :: chars rest
  end.

(** The elements [for x in o] visits. *)
Definition py_iter (o : pyval) : result (list pyval) :=
  match o with
  | PStr s => Ok (chars s)
  | PList l => Ok l
  | PDict d => Ok (map (fun kv => PStr (fst kv)) d)
  | _ => Raise (TypeError (NotIterable (type_name o)))
  end.

Definition as_int (v : pyval) : option Z :=
  match v with
  | PBool b => Some (if b then 1 else 0)
  | PInt n => Some n
  | _ => None
  end.

(** [a == b].  [bool] is a subtype of [int]; dicts compare without regard
    to order. *)
Fixpoint py_eq (a b : pyval) : bool :=
  match a, b with
  | PNone, PNone => true
  | PStr s, PStr t => (s =? t)%string
  | PList l1, PList l2 =>
      (fix go (xs ys : list pyval) {struct xs} : bool :=
         match xs, ys with
         | [], [] => true
         | x :: xs', y :: ys' => py_eq x y && go xs' ys'
         | _, _ => false
         end) l1 l2
  | PDict d1, PDict d2 =>
      (List.length d1 =? List.length d2)%nat &&
      (fix go (kvs : list (string * pyval)) {struct kvs} : bool :=
         match kvs with
         | [] => true
         | (k, v) :: kvs' =>
             match dict_lookup d2 k with
             | Some w => py_eq v w && go kvs'
             | None => false
             end
         end) d1
  | _, _ =>
      match as_int a, as_int b with
      | Some m, Some n => m =? n
      | _, _ => false
      end
  end.

Definition hashable (v : pyval) : bool :=
  match v with
  | PList _ | PDict _ => false
  | _ => true
  end.

Fixpoint is_substring (t s : string) : bool :=
  prefix t s ||
  match s with
  | EmptyString => false
  | String _ s' => is_substring t s'
  end.

(** [x in container]. *)
Definition py_contains (container x : pyval) : result bool :=
  match container with
  | PDict d =>
      if hashable x then
        Ok (match x with
            | PStr k => match dict_lookup d k with Some _ => true | None => false end
            | _ => false
            end)
      else Raise (TypeError (Unhashable (type_name x)))
  | PList l => Ok (existsb (py_eq x) l)
  | PStr s =>
      match x with
      | PStr t => Ok (is_substring t s)
      | _ => Raise (TypeError (InStringLeftOperand (type_name x)))
      end
  | _ => Raise (TypeError (NotContainer (type_name container)))
  end.

Definition upper_ascii (c : ascii) : ascii :=
  let n := nat_of_ascii c in
  if ((97 <=? n) && (n <=? 122))%nat then ascii_of_nat (n - 32) else c.

Fixpoint upper (s : string) : string :=
  match s with
  | EmptyString => EmptyString
  | String c rest => String (upper_ascii c) (upper rest)
  end.

(** [o.upper()]. *)
Definition py_upper (o : pyval) : result string :=
  match o with
  | PStr s => Ok (upper s)
  | _ => Raise (AttributeError (type_name o) "upper")
  end.

(** [s.replace(old, new)] for a one-character [old]. *)
Fixpoint replace (old : ascii) (new : string) (s : string) : string :=
  match s with
  | EmptyString => EmptyString
  | String c rest =>
      if Ascii.eqb c old then new ++ replace old new rest
      else String c (replace old new rest)
  end.

(** [str(n)] for an [int]. *)
Definition str_of_int (n : Z) : string := NilZero.string_of_int (Z.to_int n).

(** ["; ".join(l)]. *)
Definition join (l : list string) : string := String.concat "; " l.

(** ** Dates

    [datetime.fromisoformat] belongs to the Python library, not to this
    program; it enters the development as a parameter.  A [datetime] is a
    wall-clock reading in microseconds together with its UTC offset, which
    is absent for a naive value. *)

Record datetime : Type := {
  wall_us : Z;
  utcoffset_us : option Z
}.

Definition us_per_day : Z := 86400 * 1000000.

(** [(datetime.now(timezone.utc) - created_date).days], [now] being the
    current instant in microseconds UTC.  Subtracting a naive value from an
    aware one raises [TypeError]; [timedelta.days] rounds toward minus
    infinity. *)
Definition days_between (now : Z) (created_date : datetime) : option Z :=
  match utcoffset_us created_date with
  | Some off => Some ((now - (wall_us created_date - off)) / us_per_day)
  | None => None
  end.

(** ** The verdict *)

(** The sixteen keys of the returned dict, in order.  Values the method
    copies from [lb_data] without inspecting them stay [pyval]s. *)
Record verdict : Type := {
  LoadBalancerName : pyval;
  LoadBalancerType : string;
  Compartment : string;
  Shape : pyval;
  LifecycleState : pyval;
  GhostScore : Z;
  GhostStatus : string;
  GhostReasons : string;
  BackendSetCount : Z;
  ListenerCount : Z;
  CertificateCount : Z;
  TimeCreated : pyval;
  LoadBalancerId : pyval;
  Tags : string;
  BackendSetDetails : string;
  ListenerDetails : string
}.

(** The two accumulators of the method, [ghost_score] and [ghost_reasons]. *)
Record tally : Type := {
  ghost_score : Z;
  ghost_reasons : list string
}.

(** [ghost_score += points; ghost_reasons.append(reason)]. *)
Definition flag (points : Z) (reason : string) (t : tally) : tally :=
  {| ghost_score := ghost_score t + points;
     ghost_reasons := ghost_reasons t ++ [reason] |}.

(** Lines 209-218 (and, with decorated labels, [_get_display_status]). *)
Definition determine_ghost_status (ghost_score : Z) : string :=
  if ghost_score >=? 80 then "DEFINITE GHOST"
  else if ghost_score >=? 60 then "LIKELY GHOST"
  else if ghost_score >=? 40 then "SUSPICIOUS"
  else if ghost_score >=? 20 then "REVIEW NEEDED"
  else "ACTIVE".

(** The status tiers of the data model, and the label the method writes
    for each. *)
Inductive ghost_status : Type :=
| DEFINITE_GHOST
| LIKELY_GHOST
| SUSPICIOUS
| REVIEW_NEEDED
| ACTIVE
| ANALYSIS_FAILED.

Definition status_label (s : ghost_status) : string :=
  match s with
  | DEFINITE_GHOST => "DEFINITE GHOST"
  | LIKELY_GHOST => "LIKELY GHOST"
  | SUSPICIOUS => "SUSPICIOUS"
  | REVIEW_NEEDED => "REVIEW NEEDED"
  | ACTIVE => "ACTIVE"
  | ANALYSIS_FAILED => "ANALYSIS FAILED"
  end.

(** ** The method *)

Section Analysis.

(** What the Python runtime supplies: [repr] of a list or dict (reached
    only when such a value is interpolated into an f-string), [str] of a
    caught exception, and [datetime.fromisoformat] ([None] stands for the
    [ValueError] of an unparsable string). *)
Variable repr : pyval -> string.
Variable exn_str : exn -> string.
Variable fromisoformat : string -> option datetime.

(** [f"{v}"]. *)
Definition py_str (v : pyval) : string :=
  match v with
  | PNone => "None"
  | PBool true => "True"
  | PBool false => "False"
  | PInt n => str_of_int n
  | PStr s => s
  | PList _ | PDict _ => repr v
  end.

(** [[b for b in backends if not b.get('offline', True)]], over the
    elements of [backends]. *)
Fixpoint healthy_backends (backends : list pyval) : result (list pyval) :=
  match backends with
  | [] => Ok []
  | b :: rest =>
      offline <- py_get b "offline" (PBool true) ;;
      healthy <- healthy_backends rest ;;
      Ok (if truthy offline then healthy else b :: healthy)
  end.

(** The loop of lines 144-153 over [backend_sets.items()], threading
    [empty_backend_count] and [total_backends]. *)
Fixpoint count_empty_backend_sets (items : list (string * pyval))
    (empty_backend_count total_backends : Z) : result (Z * Z) :=
  match items with
  | [] => Ok (empty_backend_count, total_backends)
  | (bs_name, bs_data) :: rest =>
      backends <- py_get bs_data "backends" (PList []) ;;
      empty_backend_count' <-
        (if negb (truthy backends) then Ok (empty_backend_count + 1)
         else
           elems <- py_iter backends ;;
           healthy <- healthy_backends elems ;;
           Ok (match healthy with
               | [] => empty_backend_count + 1
               | _ :: _ => empty_backend_count
               end)) ;;
      n <- py_len backends ;;
      count_empty_backend_sets rest empty_backend_count' (total_backends + n)
  end.

(** Lines 137-160: check backend sets. *)
Definition check_backend_sets (backend_sets : pyval) (t : tally) : result tally :=
  if negb (truthy backend_sets) then
    Ok (flag 50 "No backend sets configured" t)
  else
    items <- py_items backend_sets ;;
    counts <- count_empty_backend_sets items 0 0 ;;
    n <- py_len backend_sets ;;
    let empty_backend_count := fst counts in
    if empty_backend_count =? n then
      Ok (flag 45 "All backend sets are empty or offline" t)
    else if empty_backend_count >? 0 then
      Ok (flag 25 ("Some backend sets are empty (" ++ str_of_int empty_backend_count
                   ++ "/" ++ str_of_int n ++ ")") t)
    else Ok t.

(** The loop of lines 169-172 over [listeners.items()]. *)
Fixpoint count_listeners_without_backends (backend_sets : pyval)
    (items : list (string * pyval)) (listeners_without_backends : Z) : result Z :=
  match items with
  | [] => Ok listeners_without_backends
  | (listener_name, listener_data) :: rest =>
      default_backend <- py_get listener_data "default_backend_set_name" PNone ;;
      dangling <-
        (if negb (truthy default_backend) then Ok true
         else found <- py_contains backend_sets default_backend ;; Ok (negb found)) ;;
      count_listeners_without_backends backend_sets rest
        (if dangling : bool then listeners_without_backends + 1
         else listeners_without_backends)
  end.

(** Lines 163-179: check listeners. *)
Definition check_listeners (backend_sets listeners : pyval) (t : tally) : result tally :=
  if negb (truthy listeners) then
    Ok (flag 40 "No listeners configured" t)
  else
    items <- py_items listeners ;;
    listeners_without_backends <- count_listeners_without_backends backend_sets items 0 ;;
    n <- py_len listeners ;;
    if listeners_without_backends =? n then
      Ok (flag 35 "All listeners lack valid backend sets" t)
    else if listeners_without_backends >? 0 then
      Ok (flag 20 ("Some listeners lack backend sets (" ++ str_of_int listeners_without_backends
                   ++ "/" ++ str_of_int n ++ ")") t)
    else Ok t.

(** [[l for l in listeners.values()
      if l.get('protocol', '').upper() in ['HTTPS', 'SSL']]]. *)
Fixpoint https_listeners (values : list pyval) : result (list pyval) :=
  match values with
  | [] => Ok []
  | l :: rest =>
      protocol <- py_get l "protocol" (PStr "") ;;
      up <- py_upper protocol ;;
      found <- https_listeners rest ;;
      Ok (if existsb (String.eqb up) ["HTTPS"; "SSL"] then l :: found else found)
  end.

(** Lines 182-187: check SSL certificates (for Classic LBs). *)
Definition check_ssl_certificates (lb_type : string) (certificates listeners : pyval)
    (t : tally) : result tally :=
  if (lb_type =? "Classic")%string && negb (truthy certificates) then
    values <- py_values listeners ;;
    found <- https_listeners values ;;
    match found with
    | [] => Ok t
    | _ :: _ => Ok (flag 15 "HTTPS listeners without SSL certificates" t)
    end
  else Ok t.

(** Lines 190-193: check lifecycle state. *)
Definition check_lifecycle_state (lifecycle_state : pyval) (t : tally) : tally :=
  if negb (existsb (py_eq lifecycle_state) [PStr "ACTIVE"; PStr "CREATING"]) then
    flag 30 ("Load balancer in " ++ py_str lifecycle_state ++ " state") t
  else t.

(** The body of the inner [try] of lines 199-204, up to [days_old]; [None]
    when any exception is raised, which the bare [except] swallows. *)
Definition days_old (now : Z) (time_created : pyval) : option Z :=
  match time_created with
  | PStr s =>
      match fromisoformat (replace "Z"%char "+00:00" s) with
      | Some created_date => days_between now created_date
      | None => None
      end
  | _ => None
  end.

(** Lines 196-206: check for recent activity. *)
Definition check_recent_activity (now : Z) (time_created : pyval) (t : tally) : tally :=
  if truthy time_created then
    match days_old now time_created with
    | Some d =>
        if (d >? 30) && (ghost_score t >? 40) then
          flag 10 ("Created " ++ str_of_int d ++ " days ago with issues") t
        else t
    | None => t
    end
  else t.

(** Lines 221-225: one entry per backend set. *)
Fixpoint backend_details (items : list (string * pyval)) : result (list string) :=
  match items with
  | [] => Ok []
  | (bs_name, bs_data) :: rest =>
      backends <- py_get bs_data "backends" (PList []) ;;
      elems <- py_iter backends ;;
      healthy <- healthy_backends elems ;;
      n <- py_len backends ;;
      details <- backend_details rest ;;
      Ok ((bs_name ++ ":" ++ str_of_int (len healthy) ++ "/" ++ str_of_int n
           ++ " healthy") :: details)
  end.

(** Lines 227-232: one entry per listener. *)
Fixpoint listener_details (items : list (string * pyval)) : result (list string) :=
  match items with
  | [] => Ok []
  | (listener_name, listener_data) :: rest =>
      protocol <- py_get listener_data "protocol" (PStr "Unknown") ;;
      port <- py_get listener_data "port" (PStr "Unknown") ;;
      backend_set <- py_get listener_data "default_backend_set_name" (PStr "None") ;;
      details <- listener_details rest ;;
      Ok ((listener_name ++ ":" ++ py_str protocol ++ ":" ++ py_str port ++ "->>"
           ++ py_str backend_set) :: details)
  end.

(** Lines 243-244 and 246-247: [prefix] is empty for freeform tags and
    ["{namespace}."] for the tags of a namespace. *)
Definition tag_entries (prefix : string) (items : list (string * pyval)) : list string :=
  map (fun kv => prefix ++ fst kv ++ "=" ++ py_str (snd kv)) items.

(** Lines 245-247. *)
Fixpoint defined_tag_entries (items : list (string * pyval)) : result (list string) :=
  match items with
  | [] => Ok []
  | (namespace, tags) :: rest =>
      inner <- py_items tags ;;
      more <- defined_tag_entries rest ;;
      Ok (tag_entries (namespace ++ ".") inner ++ more)%list
  end.

(** The body of the [try] block, lines 125-267. *)
Definition analyze (lb_data : dict) (compartment_name lb_type : string) (now : Z)
    : result verdict :=
  let lb_name := dict_get lb_data "display_name" (PStr "Unknown") in
  let lb_id := dict_get lb_data "id" (PStr "Unknown") in
  let backend_sets := dict_get lb_data "backend_sets" (PDict []) in
  let listeners := dict_get lb_data "listeners" (PDict []) in
  let certificates := dict_get lb_data "certificates" (PDict []) in
  t1 <- check_backend_sets backend_sets {| ghost_score := 0; ghost_reasons := [] |} ;;
  t2 <- check_listeners backend_sets listeners t1 ;;
  t3 <- check_ssl_certificates lb_type certificates listeners t2 ;;
  let lifecycle_state := dict_get lb_data "lifecycle_state" (PStr "UNKNOWN") in
  let t4 := check_lifecycle_state lifecycle_state t3 in
  let time_created := dict_get lb_data "time_created" PNone in
  let t5 := check_recent_activity now time_created t4 in
  let ghost_status := determine_ghost_status (ghost_score t5) in
  bs_items <- py_items backend_sets ;;
  bs_details <- backend_details bs_items ;;
  l_items <- py_items listeners ;;
  l_details <- listener_details l_items ;;
  let shape :=
    if (lb_type =? "Network")%string then
      PStr ("Network-" ++ py_str (dict_get lb_data "bandwidth_in_mbps" (PStr "Unknown"))
            ++ "Mbps")
    else dict_get lb_data "shape_name" (PStr "Unknown") in
  ff_items <- py_items (dict_get lb_data "freeform_tags" (PDict [])) ;;
  df_items <- py_items (dict_get lb_data "defined_tags" (PDict [])) ;;
  df_tags <- defined_tag_entries df_items ;;
  let all_tags := (tag_entries "" ff_items ++ df_tags)%list in
  n_bs <- py_len backend_sets ;;
  n_l <- py_len listeners ;;
  n_c <- py_len certificates ;;
  Ok {| LoadBalancerName := lb_name;
        LoadBalancerType := lb_type;
        Compartment := compartment_name;
        Shape := shape;
        LifecycleState := lifecycle_state;
        GhostScore := ghost_score t5;
        GhostStatus := ghost_status;
        GhostReasons := join (ghost_reasons t5);
        BackendSetCount := n_bs;
        ListenerCount := n_l;
        CertificateCount := n_c;
        TimeCreated := if truthy time_created then time_created else PStr "Unknown";
        LoadBalancerId := lb_id;
        Tags := match all_tags with [] => "" | _ :: _ => join all_tags end;
        BackendSetDetails := join bs_details;
        ListenerDetails := join l_details |}.

(** The dict the [except] handler returns, lines 272-289. *)
Definition analysis_failed (lb_data : dict) (compartment_name lb_type : string) (e : exn)
    : verdict :=
  {| LoadBalancerName := dict_get lb_data "display_name" (PStr "Unknown");
     LoadBalancerType := lb_type;
     Compartment := compartment_name;
     Shape := PStr "Unknown";
     LifecycleState := PStr "Unknown";
     GhostScore := 0;
     GhostStatus := "ANALYSIS FAILED";
     GhostReasons := "Error during analysis: " ++ exn_str e;
     BackendSetCount := 0;
     ListenerCount := 0;
     CertificateCount := 0;
     TimeCreated := PStr "Unknown";
     LoadBalancerId := dict_get lb_data "id" (PStr "Unknown");
     Tags := "";
     BackendSetDetails := "";
     ListenerDetails := "" |}.

(** [analyze_load_balancer_health]: the [try] block and its handler.  The
    warning the handler prints goes to the console and is not part of the
    returned value. *)
Definition analyze_load_balancer_health (lb_data : dict)
    (compartment_name lb_type : string) (now : Z) : verdict :=
  match analyze lb_data compartment_name lb_type now with
  | Ok v => v
  | Raise e => analysis_failed lb_data compartment_name lb_type e
  end.

End Analysis.

(** ** The data model

    The record the scanner hands to the method (lines 349-366 and 392-403),
    with the types of the data model.  A field of type [option] may be
    missing from the dict. *)

Inductive lb_kind : Type :=
| Classic
| Network.

Definition kind_label (k : lb_kind) : string :=
  match k with
  | Classic => "Classic"
  | Network => "Network"
  end.

Record Backend : Type := {
  ip_address : string;
  backend_port : Z;
  offline : option bool
}.

Record BackendSet : Type := {
  backends : list Backend
}.

Record Listener : Type := {
  protocol : string;
  port : Z;
  default_backend_set_name : option string
}.

Record LoadBalancerRecord : Type := {
  lb_type : lb_kind;
  resource_id : option string;
  display_name : option string;
  lifecycle_state : option string;
  time_created : option string;
  shape_name : option string;
  bandwidth_in_mbps : option Z;
  backend_sets : list (string * BackendSet);
  listeners : list (string * Listener);
  certificates : list (string * pyval);
  freeform_tags : list (string * string);
  defined_tags : list (string * list (string * string))
}.

(** *** Encoding into Python values *)

Definition entry (k : string) (v : option pyval) : dict :=
  match v with
  | Some x => [(k, x)]
  | None => []
  end.

Definition encode_map {A : Type} (enc : A -> pyval) (m : list (string * A)) : dict :=
  map (fun kv => (fst kv, enc (snd kv))) m.

Definition encode_backend (b : Backend) : pyval :=
  PDict ([("ip_address", PStr (ip_address b)); ("port", PInt (backend_port b))]
         ++ entry "offline" (option_map PBool (offline b))).

Definition encode_backend_set (bs : BackendSet) : pyval :=
  PDict [("backends", PList (map encode_backend (backends bs)))].

Definition encode_listener (l : Listener) : pyval :=
  PDict ([("protocol", PStr (protocol l)); ("port", PInt (port l))]
         ++ entry "default_backend_set_name" (option_map PStr (default_backend_set_name l))).

Definition encode_backend_sets (m : list (string * BackendSet)) : pyval :=
  PDict (encode_map encode_backend_set m).

Definition encode_listeners (m : list (string * Listener)) : pyval :=
  PDict (encode_map encode_listener m).

Definition encode_tags (m : list (string * string)) : pyval :=
  PDict (encode_map PStr m).

Definition encode (r : LoadBalancerRecord) : dict :=
  (entry "id" (option_map PStr (resource_id r))
   ++ entry "display_name" (option_map PStr (display_name r))
   ++ entry "lifecycle_state" (option_map PStr (lifecycle_state r))
   ++ entry "time_created" (option_map PStr (time_created r))
   ++ entry "shape_name" (option_map PStr (shape_name r))
   ++ entry "bandwidth_in_mbps" (option_map PInt (bandwidth_in_mbps r))
   ++ [("backend_sets", encode_backend_sets (backend_sets r));
       ("listeners", encode_listeners (listeners r));
       ("certificates", PDict (certificates r));
       ("freeform_tags", encode_tags (freeform_tags r));
       ("defined_tags", PDict (encode_map encode_tags (defined_tags r)))])%list.

(** *** The rules, in the words of the data model *)

(** A backend counts as offline unless its flag is present and false. *)
Definition backend_offline (b : Backend) : bool :=
  match offline b with
  | Some false => false
  | _ => true
  end.

(** A backend set is empty when it has no backend or all of them are
    offline. *)
Definition backend_set_empty (bs : BackendSet) : bool :=
  match backends bs with
  | [] => true
  | _ :: _ => forallb backend_offline (backends bs)
  end.

Definition has_key {A : Type} (m : list (string * A)) (k : string) : bool :=
  existsb (fun kv => (fst kv =? k)%string) m.

(** A listener is dangling when its default backend set name is absent,
    empty, or not a key of the backend sets. *)
Definition dangling (sets : list (string * BackendSet)) (l : Listener) : bool :=
  match default_backend_set_name l with
  | None => true
  | Some name => (name =? "")%string || negb (has_key sets name)
  end.

(** A protocol equal to HTTPS or SSL up to case. *)
Definition secure_protocol (l : Listener) : bool :=
  (upper (protocol l) =? "HTTPS")%string || (upper (protocol l) =? "SSL")%string.

Definition count {A : Type} (p : A -> bool) (m : list (string * A)) : Z :=
  len (filter (fun kv => p (snd kv)) m).

(** [classify]: the method applied to a record of the data model. *)
Definition classify (repr : pyval -> string) (exn_str : exn -> string)
    (fromisoformat : string -> option datetime)
    (r : LoadBalancerRecord) (compartment_name : string) (now : Z) : verdict :=
  analyze_load_balancer_health repr exn_str fromisoformat
    (encode r) compartment_name (kind_label (lb_type r)) now.

(** *** Sample inputs *)

Definition bare (k : lb_kind) : LoadBalancerRecord :=
  {| lb_type := k;
     resource_id := Some "ocid1.loadbalancer.oc1..example";
     display_name := Some "lb";
     lifecycle_state := Some "ACTIVE";
     time_created := None;
     shape_name := None;
     bandwidth_in_mbps := None;
     backend_sets := [];
     listeners := [];
     certificates := [];
     freeform_tags := [];
     defined_tags := [] |}.

Definition with_sets (sets : list (string * BackendSet))
    (ls : list (string * Listener)) (r : LoadBalancerRecord) : LoadBalancerRecord :=
  {| lb_type := lb_type r;
     resource_id := resource_id r;
     display_name := display_name r;
     lifecycle_state := lifecycle_state r;
     time_created := time_created r;
     shape_name := shape_name r;
     bandwidth_in_mbps := bandwidth_in_mbps r;
     backend_sets := sets;
     listeners := ls;
     certificates := certificates r;
     freeform_tags := freeform_tags r;
     defined_tags := defined_tags r |}.

Definition backend_at (ip : string) (off : bool) : Backend :=
  {| ip_address := ip; backend_port := 8080; offline := Some off |}.

(** Scenario B: a Network load balancer, one backend set with two offline
    backends, one listener pointing to that set, state ACTIVE, no creation
    time. *)
Definition scenario_B : LoadBalancerRecord :=
  with_sets
    [("bs1", {| backends := [backend_at "10.0.0.1" true; backend_at "10.0.0.2" true] |})]
    [("l1", {| protocol := "TCP"; port := 80; default_backend_set_name := Some "bs1" |})]
    (bare Network).

(** Scenario C: a Classic load balancer, one backend set with a healthy
    backend, one HTTPS listener pointing to it, no certificate, state
    ACTIVE. *)
Definition scenario_C : LoadBalancerRecord :=
  with_sets
    [("bs1", {| backends := [backend_at "10.0.0.1" false] |})]
    [("l1", {| protocol := "HTTPS"; port := 443; default_backend_set_name := Some "bs1" |})]
    (bare Classic).

(** A malformed dict: [backend_sets] is a list, not a mapping. *)
Definition malformed : dict :=
  [("display_name", PStr "broken"); ("backend_sets", PList [PStr "bs1"])].

(** A record without lifecycle state. *)
Definition stateless : LoadBalancerRecord :=
  {| lb_type := Classic;
     resource_id := None;
     display_name := None;
     lifecycle_state := None;
     time_created := None;
     shape_name := None;
     bandwidth_in_mbps := None;
     backend_sets := [("bs1", {| backends := [backend_at "10.0.0.1" false] |})];
     listeners :=
       [("l1", {| protocol := "HTTP"; port := 80; default_backend_set_name := Some "bs1" |})];
     certificates := [];
     freeform_tags := [];
     defined_tags := [] |}.

(** A Classic load balancer with nothing configured, created on
    2024-01-01. *)
Definition aged : LoadBalancerRecord :=
  {| lb_type := Classic;
     resource_id := Some "ocid1.loadbalancer.oc1..aged";
     display_name := Some "old-lb";
     lifecycle_state := Some "ACTIVE";
     time_created := Some "2024-01-01T00:00:00Z";
     shape_name := Some "100Mbps";
     bandwidth_in_mbps := None;
     backend_sets := [];
     listeners := [];
     certificates := [];
     freeform_tags := [];
     defined_tags := [] |}.

(** One hundred days after 2024-01-01T00:00:00Z, in microseconds. *)
Definition hundred_days_later : Z := (1704067200 + 100 * 86400) * 1000000.

(** Stand-ins for the runtime's functions, for evaluating the samples. *)
Definition sample_repr (v : pyval) : string := "<" ++ type_name v ++ ">".

Definition sample_exn_str (e : exn) : string :=
  match e with
  | AttributeError ty attr =>
      "'" ++ ty ++ "' object has no attribute '" ++ attr ++ "'"
  | TypeError _ => "TypeError"
  end.

(** Knows one timestamp, 2024-01-01T00:00:00+00:00, as microseconds since
    the Unix epoch. *)
Definition sample_fromisoformat (s : string) : option datetime :=
  if (s =? "2024-01-01T00:00:00+00:00")%string then
    Some {| wall_us := 1704067200 * 1000000; utcoffset_us := Some 0 |}
  else None.

(** *** The five rules on a record of the data model *)

Definition backend_set_rule (sets : list (string * BackendSet)) (t : tally) : tally :=
  match sets with
  | [] => flag 50 "No backend sets configured" t
  | _ :: _ =>
      let k := count backend_set_empty sets in
      let n := len sets in
      if k =? n then flag 45 "All backend sets are empty or offline" t
      else if k >? 0 then
        flag 25 ("Some backend sets are empty (" ++ str_of_int k ++ "/" ++ str_of_int n ++ ")") t
      else t
  end.

Definition listener_rule (sets : list (string * BackendSet))
    (ls : list (string * Listener)) (t : tally) : tally :=
  match ls with
  | [] => flag 40 "No listeners configured" t
  | _ :: _ =>
      let k := count (dangling sets) ls in
      let n := len ls in
      if k =? n then flag 35 "All listeners lack valid backend sets" t
      else if k >? 0 then
        flag 20 ("Some listeners lack backend sets (" ++ str_of_int k ++ "/" ++ str_of_int n ++ ")") t
      else t
  end.

Definition certificate_gap (k : lb_kind) (certs : list (string * pyval))
    (ls : list (string * Listener)) : bool :=
  match k, certs with
  | Classic, [] => existsb (fun kv => secure_protocol (snd kv)) ls
  | _, _ => false
  end.

Definition certificate_rule (k : lb_kind) (certs : list (string * pyval))
    (ls : list (string * Listener)) (t : tally) : tally :=
  if certificate_gap k certs ls then flag 15 "HTTPS listeners without SSL certificates" t
  else t.

Definition state_of (r : LoadBalancerRecord) : string :=
  match lifecycle_state r with
  | Some s => s
  | None => "UNKNOWN"
  end.

Definition lifecycle_rule (state : string) (t : tally) : tally :=
  if (state =? "ACTIVE")%string || (state =? "CREATING")%string then t
  else flag 30 ("Load balancer in " ++ state ++ " state") t.

(** The age in days of a creation time, when it is present, parses, and
    can be subtracted from [now]. *)
Definition age_in_days (fromisoformat : string -> option datetime)
    (now : Z) (created : option string) : option Z :=
  match created with
  | Some s =>
      match fromisoformat (replace "Z"%char "+00:00" s) with
      | Some created_date => days_between now created_date
      | None => None
      end
  | None => None
  end.

Definition stale_rule (age : option Z) (t : tally) : tally :=
  match age with
  | Some d =>
      if (d >? 30) && (ghost_score t >? 40) then
        flag 10 ("Created " ++ str_of_int d ++ " days ago with issues") t
      else t
  | None => t
  end.

Definition start : tally := {| ghost_score := 0; ghost_reasons := [] |}.

(** Rules 1 to 4 on a record. *)
Definition rules_1_to_4 (r : LoadBalancerRecord) : tally :=
  lifecycle_rule (state_of r)
    (certificate_rule (lb_type r) (certificates r) (listeners r)
       (listener_rule (backend_sets r) (listeners r)
          (backend_set_rule (backend_sets r) start))).

(** The creation time as the method sees it: an empty string is falsy and
    skips rule 5. *)
Definition creation_time (r : LoadBalancerRecord) : option string :=
  match time_created r with
  | Some s => if (s =? "")%string then None else Some s
  | None => None
  end.

(** Rules 1 to 5 on a record. *)
Definition rules (fromisoformat : string -> option datetime) (now : Z)
    (r : LoadBalancerRecord) : tally :=
  stale_rule (age_in_days fromisoformat now (creation_time r)) (rules_1_to_4 r).

(** ** A run of the scanner

    [scan_load_balancers] appends each verdict to [self.all_load_balancers]
    (lines 368-379 and 441-452); the method itself reads and writes no
    attribute of [self].  A scanned resource is its dict, its compartment
    name, its type and the instant at which it is analysed. *)

Record resource : Type := {
  res_data : dict;
  res_compartment : string;
  res_type : string;
  res_now : Z
}.

Definition scan_step (repr : pyval -> string) (exn_str : exn -> string)
    (fromisoformat : string -> option datetime)
    (all_load_balancers : list verdict) (x : resource) : list verdict :=
  (all_load_balancers ++
   [analyze_load_balancer_health repr exn_str fromisoformat
      (res_data x) (res_compartment x) (res_type x) (res_now x)])%list.

Definition scan (repr : pyval -> string) (exn_str : exn -> string)
    (fromisoformat : string -> option datetime)
    (all_load_balancers : list verdict) (xs : list resource) : list verdict :=
  fold_left (scan_step repr exn_str fromisoformat) xs all_load_balancers.

(** ** The rest of the class *)

(** [_get_display_status], lines 469-480: the label printed on the
    console. *)
Definition _get_display_status (ghost_score : Z) : string :=
  if ghost_score >=? 80 then "👻 DEFINITE GHOST"
  else if ghost_score >=? 60 then "🔍 LIKELY GHOST"
  else if ghost_score >=? 40 then "⚠️ SUSPICIOUS"
  else if ghost_score >=? 20 then "📊 REVIEW NEEDED"
  else "✅ ACTIVE".

(** The dict [_add_failed_analysis] appends, lines 484-501. *)
Definition failed_analysis (lb_name compartment_name lb_type error_msg lb_id : string)
    : verdict :=
  {| LoadBalancerName := PStr lb_name;
     LoadBalancerType := lb_type;
     Compartment := compartment_name;
     Shape := PStr "Unknown";
     LifecycleState := PStr "Unknown";
     GhostScore := 0;
     GhostStatus := "ANALYSIS FAILED";
     GhostReasons := "Failed to analyze: " ++ error_msg;
     BackendSetCount := 0;
     ListenerCount := 0;
     CertificateCount := 0;
     TimeCreated := PStr "Unknown";
     LoadBalancerId := PStr lb_id;
     Tags := "";
     BackendSetDetails := "";
     ListenerDetails := "" |}.

(** *** [scan_load_balancers], lines 291-467

    The calls to the provider are the inputs of the model.  A listed load
    balancer carries what the loop body reads of it: its name and id, and
    the outcome of fetching its details and building its dict, which is
    either that dict or the text of the exception raised on the way. *)

Record listed_lb : Type := {
  listed_name : string;
  listed_id : string;
  listed_dict : string + dict;
  listed_now : Z
}.

(** A compartment with the two lists the loop obtains for it (a listing
    that raises leaves its list empty, lines 314-331). *)
Record compartment : Type := {
  compartment_name : string;
  classic_lbs : list listed_lb;
  network_lbs : list listed_lb
}.

(** [self.all_load_balancers] and the two counters of the loop. *)
Record hunt : Type := {
  all_load_balancers : list verdict;
  total_load_balancers : Z;
  total_ghosts : Z
}.

Definition fresh : hunt :=
  {| all_load_balancers := []; total_load_balancers := 0; total_ghosts := 0 |}.

(** The body of the loops of lines 343-383 and 386-456 for one load
    balancer. *)
Definition analyze_listed (repr : pyval -> string) (exn_str : exn -> string)
    (fromisoformat : string -> option datetime)
    (lb_type : string) (name : string) (h : hunt) (lb : listed_lb) : hunt :=
  match listed_dict lb with
  | inr lb_dict =>
      let analysis :=
        analyze_load_balancer_health repr exn_str fromisoformat
          lb_dict name lb_type (listed_now lb) in
      {| all_load_balancers := all_load_balancers h ++ [analysis];
         total_load_balancers := total_load_balancers h;
         total_ghosts :=
           if GhostScore analysis >=? 40 then total_ghosts h + 1 else total_ghosts h |}
  | inl error_msg =>
      {| all_load_balancers :=
           all_load_balancers h ++
           [failed_analysis (listed_name lb) name lb_type error_msg (listed_id lb)];
         total_load_balancers := total_load_balancers h;
         total_ghosts := total_ghosts h |}
  end.

(** The body of the loop over compartments, lines 309-461. *)
Definition scan_compartment (repr : pyval -> string) (exn_str : exn -> string)
    (fromisoformat : string -> option datetime) (h : hunt) (c : compartment) : hunt :=
  let compartment_lb_count := len (classic_lbs c) + len (network_lbs c) in
  let h1 := {| all_load_balancers := all_load_balancers h;
               total_load_balancers := total_load_balancers h + compartment_lb_count;
               total_ghosts := total_ghosts h |} in
  if compartment_lb_count =? 0 then h1
  else
    fold_left (analyze_listed repr exn_str fromisoformat "Network" (compartment_name c))
      (network_lbs c)
      (fold_left (analyze_listed repr exn_str fromisoformat "Classic" (compartment_name c))
         (classic_lbs c) h1).

(** The whole loop, started with the counters at zero. *)
Definition scan_compartments (repr : pyval -> string) (exn_str : exn -> string)
    (fromisoformat : string -> option datetime)
    (all_before : list verdict) (compartments : list compartment) : hunt :=
  fold_left (scan_compartment repr exn_str fromisoformat) compartments
    {| all_load_balancers := all_before; total_load_balancers := 0; total_ghosts := 0 |}.

(** The filter of line 467. *)
Definition suspicious (all : list verdict) : list verdict :=
  filter (fun lb => GhostScore lb >=? 40) all.

(** The two lists of [self]. *)
Record hunter : Type := {
  self_all : list verdict;
  self_suspicious : list verdict
}.

(** [scan_load_balancers]: with no compartment the method returns before
    touching [self] (lines 299-301). *)
Definition scan_load_balancers (repr : pyval -> string) (exn_str : exn -> string)
    (fromisoformat : string -> option datetime)
    (self : hunter) (compartments : list compartment) : hunter :=
  match compartments with
  | [] => self
  | _ :: _ =>
      let h := scan_compartments repr exn_str fromisoformat (self_all self) compartments in
      {| self_all := all_load_balancers h;
         self_suspicious := suspicious (all_load_balancers h) |}
  end.

(** The hunter as [__init__] leaves it, lines 70-71. *)
Definition new_hunter : hunter := {| self_all := []; self_suspicious := [] |}.

(** The three counts of [generate_html_report], lines 571-573:
    [total_scanned], [total_ghosts] and [definite_ghosts]. *)
Definition report_totals (self : hunter) : Z * Z * Z :=
  (len (self_all self),
   len (self_suspicious self),
   len (filter (fun lb => GhostScore lb >=? 80) (self_suspicious self))).

(** The style classes of a row of the report, lines 600-601. *)
Definition score_class (ghost_score : Z) : string :=
  if ghost_score >=? 80 then "score-definite"
  else if ghost_score >=? 60 then "score-likely"
  else "score-suspicious".

Definition status_class (ghost_score : Z) : string :=
  if ghost_score >=? 80 then "status-definite"
  else if ghost_score >=? 60 then "status-likely"
  else "status-suspicious".

(** *** The detail strings on a record of the data model *)

Definition healthy_count (bs : BackendSet) : Z :=
  len (filter (fun b => negb (backend_offline b)) (backends bs)).

Definition backend_set_summary (kv : string * BackendSet) : string :=
  fst kv ++ ":" ++ str_of_int (healthy_count (snd kv)) ++ "/"
  ++ str_of_int (len (backends (snd kv))) ++ " healthy".

Definition listener_summary (kv : string * Listener) : string :=
  fst kv ++ ":" ++ protocol (snd kv) ++ ":" ++ str_of_int (port (snd kv)) ++ "->>"
  ++ match default_backend_set_name (snd kv) with
     | Some name => name
     | None => "None"
     end.

(** *** More sample inputs *)

(** A Classic load balancer with everything wrong: no backend set, an
    HTTPS listener pointing nowhere, no certificate, a failed state, and
    created on 2024-01-01. *)
Definition worst : LoadBalancerRecord :=
  {| lb_type := Classic;
     resource_id := Some "ocid1.loadbalancer.oc1..worst";
     display_name := Some "worst-lb";
     lifecycle_state := Some "FAILED";
     time_created := Some "2024-01-01T00:00:00Z";
     shape_name := Some "100Mbps";
     bandwidth_in_mbps := None;
     backend_sets := [];
     listeners :=
       [("l1", {| protocol := "HTTPS"; port := 443; default_backend_set_name := None |})];
     certificates := [];
     freeform_tags := [];
     defined_tags := [] |}.

(** A compartment with one Classic load balancer that has nothing
    configured and one Network load balancer whose details could not be
    fetched. *)
Definition sample_compartment : compartment :=
  {| compartment_name := "prod";
     classic_lbs :=
       [{| listed_name := "lb";
           listed_id := "ocid1.loadbalancer.oc1..example";
           listed_dict := inr (encode (bare Classic));
           listed_now := 0 |}];
     network_lbs :=
       [{| listed_name := "nlb";
           listed_id := "ocid1.networkloadbalancer.oc1..example";
           listed_dict := inl "timeout";
           listed_now := 0 |}] |}.

(** *** The dicts the scanner builds

    What the provider returns is the input of the model: the attributes
    the scanner reads, typed as the provider documents them.  [d[k] = v]
    on a dict keeps the place of a key already present. *)

Fixpoint assoc_set {A : Type} (m : list (string * A)) (k : string) (v : A)
    : list (string * A) :=
  match m with
  | [] => [(k, v)]
  | (k', v') :: rest =>
      if (k' =? k)%string then (k, v) :: rest else (k', v') :: assoc_set rest k v
  end.

(** [{k: v for k, v in pairs}], and a loop of assignments [d[k] = v]
    started on an empty dict. *)
Definition assoc_of {A : Type} (pairs : list (string * A)) : list (string * A) :=
  fold_left (fun m kv => assoc_set m (fst kv) (snd kv)) pairs [].

Record sdk_backend : Type := {
  sb_ip_address : string;
  sb_port : Z;
  sb_offline : bool
}.

Record sdk_backend_set : Type := {
  sbs_name : string;
  sbs_backends : list sdk_backend
}.

Record sdk_listener : Type := {
  sl_name : string;
  sl_protocol : string;
  sl_port : Z;
  sl_default_backend_set_name : string
}.

(** The details of a Classic load balancer, as [get_load_balancer]
    returns them; [None] is Python's [None]. *)
Record classic_details : Type := {
  cd_id : string;
  cd_display_name : string;
  cd_lifecycle_state : string;
  cd_time_created : option datetime;
  cd_shape_name : string;
  cd_backend_sets : option (list sdk_backend_set);
  cd_listeners : option (list sdk_listener);
  cd_certificates : option dict;
  cd_freeform_tags : option (list (string * string));
  cd_defined_tags : option (list (string * list (string * string)))
}.

Definition or_empty {A : Type} (x : option (list A)) : list A :=
  match x with
  | Some l => l
  | None => []
  end.

Definition time_entry (str_datetime : datetime -> string) (t : option datetime) : pyval :=
  match t with
  | Some d => PStr (str_datetime d)
  | None => PNone
  end.

Definition listener_entry (l : sdk_listener) : pyval :=
  PDict [("protocol", PStr (sl_protocol l));
         ("port", PInt (sl_port l));
         ("default_backend_set_name", PStr (sl_default_backend_set_name l))].

Definition classic_backend_set_entry (bs : sdk_backend_set) : pyval :=
  PDict [("backends",
          PList (map (fun b => PDict [("ip_address", PStr (sb_ip_address b));
                                      ("port", PInt (sb_port b));
                                      ("offline", PBool (sb_offline b))])
                     (sbs_backends bs)))].

(** [lb_dict], lines 349-366. *)
Definition lb_dict (str_datetime : datetime -> string) (lb_details : classic_details) : dict :=
  [("id", PStr (cd_id lb_details));
   ("display_name", PStr (cd_display_name lb_details));
   ("lifecycle_state", PStr (cd_lifecycle_state lb_details));
   ("time_created", time_entry str_datetime (cd_time_created lb_details));
   ("shape_name", PStr (cd_shape_name lb_details));
   ("backend_sets",
    PDict (assoc_of (map (fun bs => (sbs_name bs, classic_backend_set_entry bs))
                         (or_empty (cd_backend_sets lb_details)))));
   ("listeners",
    PDict (assoc_of (map (fun l => (sl_name l, listener_entry l))
                         (or_empty (cd_listeners lb_details)))));
   ("certificates", PDict (or_empty (cd_certificates lb_details)));
   ("freeform_tags", encode_tags (or_empty (cd_freeform_tags lb_details)));
   ("defined_tags",
    PDict (encode_map encode_tags (or_empty (cd_defined_tags lb_details))))].

(** The details of a Network load balancer and the outcome of the two
    listings made for it.  A listing that raises is [None]; so is the
    listing of the backends of one set. *)
Record network_details : Type := {
  nd_id : string;
  nd_display_name : string;
  nd_lifecycle_state : string;
  nd_time_created : option datetime;
  nd_bandwidth_in_mbps : option Z;
  nd_backend_sets : option (list (string * option (list sdk_backend)));
  nd_listeners : option (list sdk_listener);
  nd_freeform_tags : option (list (string * string));
  nd_defined_tags : option (list (string * list (string * string)))
}.

(** The part of a loop that runs before the first call that raises. *)
Fixpoint recorded {A : Type} (l : list (string * option A)) : list (string * A) :=
  match l with
  | (k, Some x) :: rest => (k, x) :: recorded rest
  | _ => []
  end.

Definition network_backend_set_entry (backends : list sdk_backend) : pyval :=
  PDict [("backends",
          PList (map (fun b => PDict [("ip_address", PStr (sb_ip_address b));
                                      ("port", PInt (sb_port b));
                                      ("offline", PBool false)])
                     backends))].

(** [nlb_dict] when [analyze_load_balancer_health] is called, lines
    392-439. *)
Definition nlb_dict (str_datetime : datetime -> string) (nlb_details : network_details)
    : dict :=
  [("id", PStr (nd_id nlb_details));
   ("display_name", PStr (nd_display_name nlb_details));
   ("lifecycle_state", PStr (nd_lifecycle_state nlb_details));
   ("time_created", time_entry str_datetime (nd_time_created nlb_details));
   ("bandwidth_in_mbps",
    match nd_bandwidth_in_mbps nlb_details with Some n => PInt n | None => PNone end);
   ("backend_sets",
    PDict (assoc_of (map (fun kv => (fst kv, network_backend_set_entry (snd kv)))
                         (recorded (or_empty (nd_backend_sets nlb_details))))));
   ("listeners",
    PDict (assoc_of (map (fun l => (sl_name l, listener_entry l))
                         (or_empty (nd_listeners nlb_details)))));
   ("certificates", PDict []);
   ("freeform_tags", encode_tags (or_empty (nd_freeform_tags nlb_details)));
   ("defined_tags",
    PDict (encode_map encode_tags (or_empty (nd_defined_tags nlb_details))))].

(** The same contents as records of the data model. *)
Definition listener_of (l : sdk_listener) : Listener :=
  {| protocol := sl_protocol l;
     port := sl_port l;
     default_backend_set_name := Some (sl_default_backend_set_name l) |}.

Definition classic_backend_set_of (bs : sdk_backend_set) : BackendSet :=
  {| backends :=
       map (fun b => {| ip_address := sb_ip_address b;
                        backend_port := sb_port b;
                        offline := Some (sb_offline b) |})
           (sbs_backends bs) |}.

Definition network_backend_set_of (backends : list sdk_backend) : BackendSet :=
  {| backends :=
       map (fun b => {| ip_address := sb_ip_address b;
                        backend_port := sb_port b;
                        offline := Some false |})
           backends |}.

Definition classic_record (str_datetime : datetime -> string) (lb_details : classic_details)
    : LoadBalancerRecord :=
  {| lb_type := Classic;
     resource_id := Some (cd_id lb_details);
     display_name := Some (cd_display_name lb_details);
     lifecycle_state := Some (cd_lifecycle_state lb_details);
     time_created := option_map str_datetime (cd_time_created lb_details);
     shape_name := Some (cd_shape_name lb_details);
     bandwidth_in_mbps := None;
     backend_sets :=
       assoc_of (map (fun bs => (sbs_name bs, classic_backend_set_of bs))
                     (or_empty (cd_backend_sets lb_details)));
     listeners :=
       assoc_of (map (fun l => (sl_name l, listener_of l))
                     (or_empty (cd_listeners lb_details)));
     certificates := or_empty (cd_certificates lb_details);
     freeform_tags := or_empty (cd_freeform_tags lb_details);
     defined_tags := or_empty (cd_defined_tags lb_details) |}.

Definition network_record (str_datetime : datetime -> string) (nlb_details : network_details)
    : LoadBalancerRecord :=
  {| lb_type := Network;
     resource_id := Some (nd_id nlb_details);
     display_name := Some (nd_display_name nlb_details);
     lifecycle_state := Some (nd_lifecycle_state nlb_details);
     time_created := option_map str_datetime (nd_time_created nlb_details);
     shape_name := None;
     bandwidth_in_mbps := nd_bandwidth_in_mbps nlb_details;
     backend_sets :=
       assoc_of (map (fun kv => (fst kv, network_backend_set_of (snd kv)))
                     (recorded (or_empty (nd_backend_sets nlb_details))));
     listeners :=
       assoc_of (map (fun l => (sl_name l, listener_of l))
                     (or_empty (nd_listeners nlb_details)));
     certificates := [];
     freeform_tags := or_empty (nd_freeform_tags nlb_details);
     defined_tags := or_empty (nd_defined_tags nlb_details) |}.

(** A dict that the method reads as it reads the encoding of [r]. *)
Definition represents (d : dict) (r : LoadBalancerRecord) : Prop :=
  dict_get d "backend_sets" (PDict []) = encode_backend_sets (backend_sets r) /\
  dict_get d "listeners" (PDict []) = encode_listeners (listeners r) /\
  dict_get d "certificates" (PDict []) = PDict (certificates r) /\
  dict_get d "lifecycle_state" (PStr "UNKNOWN") = PStr (state_of r) /\
  dict_get d "time_created" PNone =
    match time_created r with Some s => PStr s | None => PNone end /\
  dict_get d "freeform_tags" (PDict []) = encode_tags (freeform_tags r) /\
  dict_get d "defined_tags" (PDict []) = PDict (encode_map encode_tags (defined_tags r)).

(** *** [get_all_compartments], lines 73-120

    A compartment as the identity service returns it; the description may
    be [None]. *)
Record sdk_compartment : Type := {
  sc_id : string;
  sc_name : string;
  sc_description : option string;
  sc_lifecycle_state : string
}.

(** The dict appended for a compartment; [description or default]. *)
Record compartment_info : Type := {
  ci_id : string;
  ci_name : string;
  ci_description : string
}.

Definition compartment_entry (default : string) (c : sdk_compartment) : compartment_info :=
  {| ci_id := sc_id c;
     ci_name := sc_name c;
     ci_description :=
       match sc_description c with
       | Some text => if (text =? "")%string then default else text
       | None => default
       end |}.

Definition is_active (c : sdk_compartment) : bool :=
  (sc_lifecycle_state c =? "ACTIVE")%string.

(** Lines 79-89: [requested] holds, for each id asked for, what
    [get_compartment] returned, or [None] when it raised. *)
Fixpoint requested_compartments (requested : list (option sdk_compartment))
    : list compartment_info :=
  match requested with
  | [] => []
  | Some c :: rest =>
      if is_active c then compartment_entry "No description" c :: requested_compartments rest
      else requested_compartments rest
  | None :: rest => requested_compartments rest
  end.

(** Lines 91-118: [None] for a call that raised. *)
Definition discovered_compartments (root : option sdk_compartment)
    (children : option (list sdk_compartment)) : list compartment_info :=
  match root, children with
  | Some root_comp, Some all_compartments =>
      compartment_entry "Root compartment" root_comp
      :: map (compartment_entry "No description") (filter is_active all_compartments)
  | _, _ => []
  end.

(** [get_all_compartments]: ids were given when [requested] is not
    empty. *)
Definition get_all_compartments (requested : list (option sdk_compartment))
    (root : option sdk_compartment) (children : option (list sdk_compartment))
    : list compartment_info :=
  match requested with
  | _ :: _ => requested_compartments requested
  | [] => discovered_compartments root children
  end.

(** Stand-in for [str] of a [datetime], and a Network load balancer whose
    backend sets could not be listed. *)
Definition sample_str_datetime (d : datetime) : string := "2024-01-01 00:00:00+00:00".

Definition unlisted : network_details :=
  {| nd_id := "ocid1.networkloadbalancer.oc1..example";
     nd_display_name := "nlb";
     nd_lifecycle_state := "ACTIVE";
     nd_time_created := None;
     nd_bandwidth_in_mbps := None;
     nd_backend_sets := None;
     nd_listeners :=
       Some [{| sl_name := "l1"; sl_protocol := "TCP"; sl_port := 80;
                sl_default_backend_set_name := "bs1" |}];
     nd_freeform_tags := None;
     nd_defined_tags := None |}.

(** *** Invariants of the tally and of the run *)

(** One rule either leaves the tally alone or flags it once, for 10 to 50
    points and with a reason that is not empty. *)
Inductive grows (t : tally) : tally -> Prop :=
| grows_same : grows t t
| grows_flag : forall p reason,
    10 <= p <= 50 -> reason <> "" -> grows t (flag p reason t).

(** A tally reached from the start by [n] flags. *)
Definition flagged_times (n : Z) (t : tally) : Prop :=
  len (ghost_reasons t) = n /\
  10 * n <= ghost_score t <= 50 * n /\
  Forall (fun reason => reason <> "") (ghost_reasons t).

(** A verdict is either a failed analysis with score 0, or carries the
    status of the ladder for a score that is not negative. *)
Definition coherent (v : verdict) : Prop :=
  (GhostStatus v = status_label ANALYSIS_FAILED /\ GhostScore v = 0) \/
  (0 <= GhostScore v /\ GhostStatus v = determine_ghost_status (GhostScore v)).

(** What the loop keeps true: the ghost counter is the number of
    suspicious verdicts, the load balancer counter is the number of
    verdicts plus the [pending] load balancers of the current compartment,
    and every verdict is coherent. *)
Definition in_step (pending : Z) (h : hunt) : Prop :=
  total_ghosts h = len (suspicious (all_load_balancers h)) /\
  total_load_balancers h = len (all_load_balancers h) + pending /\
  Forall coherent (all_load_balancers h).

(** *** Inputs for the rules *)

(** Two backend sets: one with a healthy backend, one whose backends are
    offline or of unknown state. *)
Definition half_empty_sets : list (string * BackendSet) :=
  [("bs1", {| backends := [backend_at "10.0.0.1" false] |});
   ("bs2", {| backends :=
                [backend_at "10.0.0.2" true;
                 {| ip_address := "10.0.0.3"; backend_port := 8080; offline := None |}] |})].

(** Two backend sets, one without backends and one with an offline
    backend. *)
Definition empty_sets : list (string * BackendSet) :=
  [("bs1", {| backends := [] |});
   ("bs2", {| backends := [backend_at "10.0.0.2" true] |})].

Definition healthy_sets : list (string * BackendSet) :=
  [("bs1", {| backends := [backend_at "10.0.0.1" false] |})].

Definition listener_to (protocol_name : string) (target : option string) : Listener :=
  {| protocol := protocol_name; port := 443; default_backend_set_name := target |}.

(** Letters up to case, spelled out without [upper]: [c] is the capital
    [u] or the character 32 places after it. *)
Definition same_letter (u c : ascii) : bool :=
  (c =? u)%char || (nat_of_ascii c =? nat_of_ascii u + 32)%nat.

(** [s] spells the capitals of [pattern], each letter in either case. *)
Fixpoint spelled (pattern s : string) : bool :=
  match pattern, s with
  | EmptyString, EmptyString => true
  | String u pattern', String c s' => same_letter u c && spelled pattern' s'
  | _, _ => false
  end.

(** A stand-in for [datetime.fromisoformat] that knows midnight of
    2024-01-01 in three writings: in UTC, in a zone two hours ahead (the
    same instant), and without offset. *)
Definition zoned_fromisoformat (s : string) : option datetime :=
  if (s =? "2024-01-01T00:00:00+00:00")%string then
    Some {| wall_us := 1704067200 * 1000000; utcoffset_us := Some 0 |}
  else if (s =? "2024-01-01T02:00:00+02:00")%string then
    Some {| wall_us := (1704067200 + 7200) * 1000000;
            utcoffset_us := Some (7200 * 1000000) |}
  else if (s =? "2024-01-01T00:00:00")%string then
    Some {| wall_us := 1704067200 * 1000000; utcoffset_us := None |}
  else None.

(** The [aged] load balancer with another writing of its creation time. *)
Definition aged_as (created : string) : LoadBalancerRecord :=
  {| lb_type := lb_type aged;
     resource_id := resource_id aged;
     display_name := display_name aged;
     lifecycle_state := lifecycle_state aged;
     time_created := Some created;
     shape_name := shape_name aged;
     bandwidth_in_mbps := bandwidth_in_mbps aged;
     backend_sets := backend_sets aged;
     listeners := listeners aged;
     certificates := certificates aged;
     freeform_tags := freeform_tags aged;
     defined_tags := defined_tags aged |}.

(** Microseconds since the Unix epoch, [days] days and [us] microseconds
    after midnight of 2024-01-01 UTC. *)
Definition after_2024 (days us : Z) : Z := (1704067200 + days * 86400) * 1000000 + us.

(** ** Properties *)

(** *** Lists and counters *)

Lemma len_nil : forall A : Type, len (@nil A) = 0.
Proof. reflexivity. Qed.

Lemma len_cons : forall (A : Type) (x : A) (l : list A), len (x :: l) = len l + 1.
Proof. intros. unfold len. cbn [List.length]. lia. Qed.

Lemma len_nonneg : forall (A : Type) (l : list A), 0 <= len l.
Proof. intros. unfold len. lia. Qed.

Lemma len_map : forall (A B : Type) (f : A -> B) (l : list A), len (map f l) = len l.
Proof. intros. unfold len. now rewrite length_map. Qed.

Lemma count_nil : forall (A : Type) (p : A -> bool), count p [] = 0.
Proof. reflexivity. Qed.

Lemma count_cons : forall (A : Type) (p : A -> bool) (k : string) (x : A) m,
  count p ((k, x) :: m) = (if p x then 1 else 0) + count p m.
Proof.
  intros. unfold count. cbn [filter snd].
  destruct (p x); [rewrite len_cons|]; lia.
Qed.

Lemma count_bounds : forall (A : Type) (p : A -> bool) m, 0 <= count p m <= len m.
Proof.
  induction m as [|[k x] m IH].
  - rewrite count_nil, len_nil. lia.
  - rewrite count_cons, len_cons. destruct (p x); lia.
Qed.

(** All entries satisfy [p] exactly when the count reaches the length. *)
Lemma count_all : forall (A : Type) (p : A -> bool) m,
  count p m = len m <-> forallb (fun kv => p (snd kv)) m = true.
Proof.
  induction m as [|[k x] m IH].
  - rewrite count_nil, len_nil. cbn. tauto.
  - rewrite count_cons, len_cons. cbn [forallb snd].
    pose proof (count_bounds A p m) as B.
    destruct (p x); cbn [andb].
    + rewrite <- IH. lia.
    + split; [lia | discriminate].
Qed.

(** No entry satisfies [p] exactly when the count is zero. *)
Lemma count_none : forall (A : Type) (p : A -> bool) m,
  count p m = 0 <-> existsb (fun kv => p (snd kv)) m = false.
Proof.
  induction m as [|[k x] m IH].
  - rewrite count_nil. cbn. tauto.
  - rewrite count_cons. cbn [existsb snd].
    pose proof (count_bounds A p m) as B.
    destruct (p x); cbn [orb].
    + split; [lia | discriminate].
    + rewrite <- IH. lia.
Qed.

Lemma count_all_iff : forall (A : Type) (p : A -> bool) m,
  count p m = len m <-> forall k x, In (k, x) m -> p x = true.
Proof.
  intros A p m. rewrite count_all, forallb_forall. split.
  - intros H k x I. exact (H (k, x) I).
  - intros H [k x] I. exact (H k x I).
Qed.

Lemma count_none_iff : forall (A : Type) (p : A -> bool) m,
  count p m = 0 <-> forall k x, In (k, x) m -> p x = false.
Proof.
  intros A p m. rewrite count_none. split.
  - intros H k x I. destruct (p x) eqn:P; [|reflexivity].
    assert (E : existsb (fun kv => p (snd kv)) m = true)
      by (apply existsb_exists; exists (k, x); auto).
    congruence.
  - intros H. destruct (existsb _ m) eqn:E; [|reflexivity].
    apply existsb_exists in E. destruct E as [[k x] [I P]].
    cbn [snd] in P. rewrite (H k x I) in P. discriminate.
Qed.

(** *** The encoding under the primitive operations *)

Lemma lookup_encode_map : forall (A : Type) (enc : A -> pyval) m k,
  dict_lookup (encode_map enc m) k = None <-> has_key m k = false.
Proof.
  induction m as [|[k' x] m IH]; intros k; cbn.
  - tauto.
  - destruct (k' =? k)%string; cbn; [split; discriminate | apply IH].
Qed.

Lemma contains_backend_set : forall sets name,
  py_contains (encode_backend_sets sets) (PStr name) = Ok (has_key sets name).
Proof.
  intros. unfold py_contains, encode_backend_sets. cbn [hashable].
  f_equal.
  destruct (dict_lookup (encode_map encode_backend_set sets) name) eqn:E;
    destruct (has_key sets name) eqn:H; try reflexivity.
  - apply (proj2 (lookup_encode_map _ encode_backend_set _ _)) in H. congruence.
  - apply (proj1 (lookup_encode_map _ encode_backend_set _ _)) in E. congruence.
Qed.

Lemma get_offline : forall b,
  py_get (encode_backend b) "offline" (PBool true) = Ok (PBool (backend_offline b)).
Proof.
  intros b. unfold backend_offline, encode_backend.
  destruct (offline b) as [[|]|]; reflexivity.
Qed.

Lemma healthy_backends_encode : forall bks,
  healthy_backends (map encode_backend bks) =
  Ok (map encode_backend (filter (fun b => negb (backend_offline b)) bks)).
Proof.
  induction bks as [|b bks IH].
  - reflexivity.
  - cbn [map healthy_backends filter].
    rewrite get_offline, IH. cbn [bind truthy].
    destruct (backend_offline b); reflexivity.
Qed.

(** No healthy backend is left exactly when every backend is offline. *)
Lemma no_healthy_backend : forall bks,
  filter (fun b => negb (backend_offline b)) bks = [] <->
  forallb backend_offline bks = true.
Proof.
  induction bks as [|b bks IH]; cbn.
  - tauto.
  - destruct (backend_offline b); cbn; [exact IH | split; discriminate].
Qed.

Lemma backend_set_empty_filter : forall bs,
  backend_set_empty bs =
  match filter (fun b => negb (backend_offline b)) (backends bs) with
  | [] => true
  | _ :: _ => false
  end.
Proof.
  intros bs. unfold backend_set_empty.
  pose proof (no_healthy_backend (backends bs)) as H.
  destruct (backends bs) as [|b bks]; [reflexivity|].
  destruct (filter _ (b :: bks)) as [|h hs].
  - now apply H.
  - destruct (forallb backend_offline (b :: bks)); [|reflexivity].
    destruct H as [_ H]. discriminate (H eq_refl).
Qed.

(** Closes a loop step with the induction hypothesis at the counters the
    goal has reached. *)
Ltac loop_step IH :=
  match goal with
  | |- exists _, ?f _ ?e ?tb = _ =>
      let tb' := fresh "tb'" in
      let E := fresh "E" in
      destruct (IH e tb) as [tb' E]; exists tb';
      unfold encode_map in E |- *; rewrite E; do 2 f_equal; lia
  end.

Lemma count_empty_backend_sets_encode : forall sets e tb,
  exists tb',
    count_empty_backend_sets (encode_map encode_backend_set sets) e tb =
    Ok (e + count backend_set_empty sets, tb').
Proof.
  induction sets as [|[k bs] sets IH]; intros e tb.
  - exists tb. rewrite count_nil. cbn [encode_map map count_empty_backend_sets].
    do 2 f_equal. lia.
  - cbn [encode_map map fst snd count_empty_backend_sets].
    rewrite count_cons, backend_set_empty_filter.
    unfold encode_backend_set at 1.
    cbn [py_get dict_get dict_lookup String.eqb Ascii.eqb Bool.eqb bind].
    destruct (backends bs) as [|b bks] eqn:B.
    + cbn [map truthy negb filter bind py_len]. loop_step IH.
    + cbn [map truthy negb py_iter bind].
      change (encode_backend b :: map encode_backend bks)
        with (map encode_backend (b :: bks)).
      rewrite healthy_backends_encode. cbn [bind py_len].
      destruct (filter (fun b0 => negb (backend_offline b0)) (b :: bks)) as [|h hs];
        cbn [map]; loop_step IH.
Qed.

Lemma get_default_backend : forall l,
  py_get (encode_listener l) "default_backend_set_name" PNone =
  Ok (match default_backend_set_name l with
      | Some name => PStr name
      | None => PNone
      end).
Proof.
  intros l. unfold encode_listener.
  destruct (default_backend_set_name l); reflexivity.
Qed.

Lemma count_listeners_without_backends_encode : forall sets ls c,
  count_listeners_without_backends (encode_backend_sets sets)
    (encode_map encode_listener ls) c =
  Ok (c + count (dangling sets) ls).
Proof.
  induction ls as [|[k l] ls IH]; intros c.
  - rewrite count_nil. cbn [encode_map map count_listeners_without_backends].
    f_equal. lia.
  - cbn [encode_map map fst snd count_listeners_without_backends].
    rewrite get_default_backend, count_cons. cbn [bind].
    unfold dangling at 1.
    destruct (default_backend_set_name l) as [name|]; cbn [truthy negb].
    + destruct (name =? "")%string; cbn [negb orb bind].
      * fold (encode_map encode_listener ls). rewrite IH. f_equal. lia.
      * rewrite contains_backend_set. cbn [bind].
        fold (encode_map encode_listener ls). rewrite IH.
        destruct (has_key sets name); cbn [negb]; f_equal; lia.
    + cbn [bind]. fold (encode_map encode_listener ls). rewrite IH. f_equal. lia.
Qed.

Lemma https_listeners_encode : forall ls,
  https_listeners (map snd (encode_map encode_listener ls)) =
  Ok (map encode_listener (filter secure_protocol (map snd ls))).
Proof.
  induction ls as [|[k l] ls IH].
  - reflexivity.
  - cbn [encode_map map fst snd https_listeners filter].
    fold (encode_map encode_listener ls). rewrite IH.
    unfold encode_listener at 1.
    cbn [py_get dict_get dict_lookup app String.eqb Ascii.eqb Bool.eqb bind py_upper existsb].
    rewrite orb_false_r.
    change ((upper (protocol l) =? "HTTPS")%string || (upper (protocol l) =? "SSL")%string)
      with (secure_protocol l).
    destruct (secure_protocol l); reflexivity.
Qed.

Lemma filter_nil_existsb : forall (A : Type) (p : A -> bool) (l : list A),
  match filter p l with [] => false | _ :: _ => true end = existsb p l.
Proof.
  induction l as [|x l IH]; cbn; [reflexivity|].
  destruct (p x); [reflexivity | exact IH].
Qed.

Lemma lookup_app : forall (d1 d2 : dict) k,
  dict_lookup (d1 ++ d2)%list k =
  match dict_lookup d1 k with
  | Some v => Some v
  | None => dict_lookup d2 k
  end.
Proof.
  induction d1 as [|[k' v] d1 IH]; intros d2 k; cbn; [reflexivity|].
  destruct (k' =? k)%string; [reflexivity | apply IH].
Qed.

Lemma lookup_entry : forall k' v k,
  dict_lookup (entry k' v) k = if (k' =? k)%string then v else None.
Proof.
  intros k' [v|] k; cbn; destruct (k' =? k)%string; reflexivity.
Qed.

(** Reads a key of an encoded record. *)
Ltac read_key :=
  unfold dict_get, encode;
  repeat rewrite lookup_app; repeat rewrite lookup_entry;
  cbn [dict_lookup String.eqb Ascii.eqb Bool.eqb].

Lemma get_backend_sets : forall r,
  dict_get (encode r) "backend_sets" (PDict []) = encode_backend_sets (backend_sets r).
Proof. intros r. read_key. reflexivity. Qed.

Lemma get_listeners : forall r,
  dict_get (encode r) "listeners" (PDict []) = encode_listeners (listeners r).
Proof. intros r. read_key. reflexivity. Qed.

Lemma get_certificates : forall r,
  dict_get (encode r) "certificates" (PDict []) = PDict (certificates r).
Proof. intros r. read_key. reflexivity. Qed.

Lemma get_freeform_tags : forall r,
  dict_get (encode r) "freeform_tags" (PDict []) = encode_tags (freeform_tags r).
Proof. intros r. read_key. reflexivity. Qed.

Lemma get_defined_tags : forall r,
  dict_get (encode r) "defined_tags" (PDict []) =
  PDict (encode_map encode_tags (defined_tags r)).
Proof. intros r. read_key. reflexivity. Qed.

Lemma get_lifecycle_state : forall r,
  dict_get (encode r) "lifecycle_state" (PStr "UNKNOWN") = PStr (state_of r).
Proof.
  intros r. read_key. unfold state_of.
  destruct (lifecycle_state r); reflexivity.
Qed.

Lemma get_time_created : forall r,
  dict_get (encode r) "time_created" PNone =
  match time_created r with
  | Some s => PStr s
  | None => PNone
  end.
Proof.
  intros r. read_key.
  destruct (time_created r); reflexivity.
Qed.

Section Correctness.

Variable repr : pyval -> string.
Variable exn_str : exn -> string.
Variable fromisoformat : string -> option datetime.

(** Rule 1 of the method on an encoded record is the rule of the data
    model. *)
Lemma check_backend_sets_encode : forall sets t,
  check_backend_sets (encode_backend_sets sets) t = Ok (backend_set_rule sets t).
Proof.
  intros sets t. unfold check_backend_sets, backend_set_rule.
  destruct sets as [|kv sets]; [reflexivity|].
  set (m := kv :: sets).
  assert (T : truthy (encode_backend_sets m) = true) by reflexivity.
  rewrite T. cbn [negb]. unfold encode_backend_sets at 1. cbn [py_items bind].
  destruct (count_empty_backend_sets_encode m 0 0) as [tb E].
  rewrite E. cbn [bind fst]. unfold encode_backend_sets. cbn [py_len bind].
  unfold encode_map. rewrite len_map. rewrite Z.add_0_l.
  destruct (count backend_set_empty m =? len m); [reflexivity|].
  destruct (count backend_set_empty m >? 0); reflexivity.
Qed.

(** Rule 2. *)
Lemma check_listeners_encode : forall sets ls t,
  check_listeners (encode_backend_sets sets) (encode_listeners ls) t =
  Ok (listener_rule sets ls t).
Proof.
  intros sets ls t. unfold check_listeners, listener_rule.
  destruct ls as [|kv ls]; [reflexivity|].
  set (m := kv :: ls).
  assert (T : truthy (encode_listeners m) = true) by reflexivity.
  rewrite T. cbn [negb]. unfold encode_listeners. cbn [py_items bind].
  rewrite count_listeners_without_backends_encode. cbn [bind py_len].
  unfold encode_map. rewrite len_map, Z.add_0_l.
  destruct (count (dangling sets) m =? len m); [reflexivity|].
  destruct (count (dangling sets) m >? 0); reflexivity.
Qed.

(** Rule 3. *)
Lemma check_ssl_certificates_encode : forall k certs ls t,
  check_ssl_certificates (kind_label k) (PDict certs) (encode_listeners ls) t =
  Ok (certificate_rule k certs ls t).
Proof.
  intros k certs ls t. unfold check_ssl_certificates, certificate_rule, certificate_gap.
  destruct k; [|reflexivity].
  destruct certs as [|c certs]; [|reflexivity].
  cbn [kind_label String.eqb Ascii.eqb Bool.eqb truthy negb andb].
  unfold encode_listeners. cbn [py_values bind].
  rewrite https_listeners_encode. cbn [bind].
  rewrite <- (filter_nil_existsb _ (fun kv => secure_protocol (snd kv)) ls).
  induction ls as [|[n l] ls IH]; [reflexivity|].
  cbn [map snd filter].
  destruct (secure_protocol l); [reflexivity | exact IH].
Qed.

(** Rule 4. *)
Lemma check_lifecycle_state_encode : forall state t,
  check_lifecycle_state repr (PStr state) t = lifecycle_rule state t.
Proof.
  intros state t. unfold check_lifecycle_state, lifecycle_rule.
  cbn [existsb py_eq py_str]. rewrite orb_false_r.
  destruct ((state =? "ACTIVE")%string || (state =? "CREATING")%string); reflexivity.
Qed.

(** Rule 5, on the creation time as read from an encoded record. *)
Lemma check_recent_activity_encode : forall now r t,
  check_recent_activity fromisoformat now (dict_get (encode r) "time_created" PNone) t =
  stale_rule (age_in_days fromisoformat now (creation_time r)) t.
Proof.
  intros now r t. rewrite get_time_created.
  unfold check_recent_activity, creation_time.
  destruct (time_created r) as [s|]; [|reflexivity].
  cbn [truthy]. destruct (s =? "")%string; reflexivity.
Qed.

(** The detail strings never fail on an encoded record. *)
Lemma backend_details_encode : forall sets,
  exists ds, backend_details (encode_map encode_backend_set sets) = Ok ds.
Proof.
  induction sets as [|[k bs] sets [ds IH]].
  - now exists [].
  - cbn [encode_map map fst snd backend_details].
    unfold encode_backend_set at 1.
    cbn [py_get dict_get dict_lookup String.eqb Ascii.eqb Bool.eqb bind py_iter].
    rewrite healthy_backends_encode. cbn [bind py_len].
    fold (encode_map encode_backend_set sets). rewrite IH. cbn [bind].
    eexists. reflexivity.
Qed.

Lemma listener_details_encode : forall ls,
  exists ds, listener_details repr (encode_map encode_listener ls) = Ok ds.
Proof.
  induction ls as [|[k l] ls [ds IH]].
  - now exists [].
  - cbn [encode_map map fst snd listener_details].
    unfold encode_listener at 1 2 3. cbn [py_get bind].
    fold (encode_map encode_listener ls). rewrite IH. cbn [bind].
    eexists. reflexivity.
Qed.

Lemma defined_tag_entries_encode : forall tags,
  exists es, defined_tag_entries repr (encode_map encode_tags tags) = Ok es.
Proof.
  induction tags as [|[ns m] tags [es IH]].
  - now exists [].
  - cbn [encode_map map fst snd defined_tag_entries].
    unfold encode_tags at 1. cbn [py_items bind].
    fold (encode_map encode_tags tags). rewrite IH. cbn [bind].
    eexists. reflexivity.
Qed.

(** The method on an encoded record: the body never raises, and the
    scored fields are those of the five rules. *)
Lemma analyze_encode : forall r compartment_name now,
  exists v,
    analyze repr fromisoformat (encode r) compartment_name (kind_label (lb_type r)) now
      = Ok v /\
    GhostScore v = ghost_score (rules fromisoformat now r) /\
    GhostReasons v = join (ghost_reasons (rules fromisoformat now r)) /\
    GhostStatus v = determine_ghost_status (ghost_score (rules fromisoformat now r)) /\
    LifecycleState v = PStr (state_of r).
Proof.
  intros r c now. unfold analyze.
  rewrite get_backend_sets, get_listeners, get_certificates, get_lifecycle_state,
    get_freeform_tags, get_defined_tags.
  rewrite check_backend_sets_encode. cbn [bind].
  rewrite check_listeners_encode. cbn [bind].
  rewrite check_ssl_certificates_encode. cbn [bind].
  rewrite check_lifecycle_state_encode, check_recent_activity_encode.
  fold start. fold (rules_1_to_4 r). fold (rules fromisoformat now r).
  unfold encode_backend_sets, encode_listeners.
  change (encode_tags (freeform_tags r)) with (PDict (encode_map PStr (freeform_tags r))).
  cbn [py_items bind py_len].
  destruct (backend_details_encode (backend_sets r)) as [bd Eb]. rewrite Eb.
  destruct (listener_details_encode (listeners r)) as [ld El]. rewrite El.
  destruct (defined_tag_entries_encode (defined_tags r)) as [es Ed]. rewrite Ed.
  cbn [bind]. eexists. split; [reflexivity|]. cbn. repeat split; reflexivity.
Qed.

End Correctness.

(** *** What each rule adds to the score *)

Lemma flag_score : forall p reason t, ghost_score (flag p reason t) = ghost_score t + p.
Proof. reflexivity. Qed.

Lemma backend_set_rule_points : forall sets t,
  exists p, In p [0; 25; 45; 50] /\
            ghost_score (backend_set_rule sets t) = ghost_score t + p.
Proof.
  intros sets t. unfold backend_set_rule.
  destruct sets as [|kv sets]; [exists 50; cbn; auto 6|].
  destruct (_ =? _); [exists 45; cbn; auto 6|].
  destruct (_ >? _); [exists 25; cbn; auto 6|].
  exists 0. cbn. split; [auto | lia].
Qed.

Lemma listener_rule_points : forall sets ls t,
  exists p, In p [0; 20; 35; 40] /\
            ghost_score (listener_rule sets ls t) = ghost_score t + p.
Proof.
  intros sets ls t. unfold listener_rule.
  destruct ls as [|kv ls]; [exists 40; cbn; auto 6|].
  destruct (_ =? _); [exists 35; cbn; auto 6|].
  destruct (_ >? _); [exists 20; cbn; auto 6|].
  exists 0. cbn. split; [auto | lia].
Qed.

Lemma certificate_rule_points : forall k certs ls t,
  exists p, In p [0; 15] /\
            ghost_score (certificate_rule k certs ls t) = ghost_score t + p.
Proof.
  intros k certs ls t. unfold certificate_rule.
  destruct (certificate_gap k certs ls); [exists 15; cbn; auto|].
  exists 0. cbn. split; [auto | lia].
Qed.

Lemma lifecycle_rule_points : forall state t,
  exists p, In p [0; 30] /\
            ghost_score (lifecycle_rule state t) = ghost_score t + p.
Proof.
  intros state t. unfold lifecycle_rule.
  destruct (_ || _); [|exists 30; cbn; auto].
  exists 0. cbn. split; [auto | lia].
Qed.

Lemma stale_rule_points : forall age t,
  exists p, In p [0; 10] /\
            ghost_score (stale_rule age t) = ghost_score t + p.
Proof.
  intros age t. unfold stale_rule.
  destruct age as [d|]; [destruct (_ && _); [exists 10; cbn; auto|]|];
    exists 0; cbn; (split; [auto | lia]).
Qed.

(** The score of a record is the sum of what the five rules add. *)
Lemma rules_points : forall fromisoformat now r,
  exists p1 p2 p3 p4 p5,
    ghost_score (rules fromisoformat now r) = 0 + p1 + p2 + p3 + p4 + p5 /\
    ghost_score (rules_1_to_4 r) = 0 + p1 + p2 + p3 + p4 /\
    In p1 [0; 25; 45; 50] /\ In p2 [0; 20; 35; 40] /\ In p3 [0; 15] /\
    In p4 [0; 30] /\ In p5 [0; 10].
Proof.
  intros f now r. unfold rules, rules_1_to_4.
  set (t1 := backend_set_rule (backend_sets r) start).
  set (t2 := listener_rule (backend_sets r) (listeners r) t1).
  set (t3 := certificate_rule (lb_type r) (certificates r) (listeners r) t2).
  set (t4 := lifecycle_rule (state_of r) t3).
  destruct (backend_set_rule_points (backend_sets r) start) as [p1 [I1 E1]].
  destruct (listener_rule_points (backend_sets r) (listeners r) t1) as [p2 [I2 E2]].
  destruct (certificate_rule_points (lb_type r) (certificates r) (listeners r) t2)
    as [p3 [I3 E3]].
  destruct (lifecycle_rule_points (state_of r) t3) as [p4 [I4 E4]].
  destruct (stale_rule_points (age_in_days f now (creation_time r)) t4) as [p5 [I5 E5]].
  exists p1, p2, p3, p4, p5.
  fold t1 in E1. fold t2 in E2. fold t3 in E3. fold t4 in E4, E5.
  change (ghost_score start) with 0 in E1.
  repeat split; try assumption; lia.
Qed.

(** A tier other than ACTIVE from 20 points on. *)
Lemma not_active_from_20 : forall s,
  20 <= s -> determine_ghost_status s <> status_label ACTIVE.
Proof.
  intros s H. unfold determine_ghost_status.
  repeat match goal with
  | |- context [?a >=? ?b] => destruct (Z.geb_spec a b); try discriminate
  end.
  lia.
Qed.

Lemma reasons_after_stale_rule : forall age t reason,
  In reason (ghost_reasons t) -> In reason (ghost_reasons (stale_rule age t)).
Proof.
  intros age t reason H. unfold stale_rule.
  destruct age as [d|]; [|exact H].
  destruct (_ && _); [|exact H].
  cbn. apply in_or_app. now left.
Qed.

Lemma scan_app : forall repr exn_str fromisoformat xs init,
  scan repr exn_str fromisoformat init xs =
  (init ++ map (fun x => analyze_load_balancer_health repr exn_str fromisoformat
                           (res_data x) (res_compartment x) (res_type x) (res_now x))
               xs)%list.
Proof.
  intros repr exn_str f. unfold scan.
  induction xs as [|x xs IH]; intros init; cbn [fold_left map].
  - now rewrite app_nil_r.
  - rewrite IH. unfold scan_step. now rewrite <- app_assoc.
Qed.

(** The ladder never yields the label of a failed analysis. *)
Lemma status_ladder_tiers : forall s,
  exists tier, tier <> ANALYSIS_FAILED /\ determine_ghost_status s = status_label tier.
Proof.
  intros s. unfold determine_ghost_status.
  destruct (s >=? 80); [exists DEFINITE_GHOST; split; [discriminate | reflexivity]|].
  destruct (s >=? 60); [exists LIKELY_GHOST; split; [discriminate | reflexivity]|].
  destruct (s >=? 40); [exists SUSPICIOUS; split; [discriminate | reflexivity]|].
  destruct (s >=? 20); [exists REVIEW_NEEDED; split; [discriminate | reflexivity]|].
  exists ACTIVE; split; [discriminate | reflexivity].
Qed.

(** Since the empty string does not parse, skipping it loses no age. *)
Lemma age_of_creation_time : forall fromisoformat now r,
  fromisoformat "" = None ->
  age_in_days fromisoformat now (creation_time r) =
  age_in_days fromisoformat now (time_created r).
Proof.
  intros f now r H. unfold creation_time.
  destruct (time_created r) as [s|]; [|reflexivity].
  destruct (String.eqb_spec s ""); [|reflexivity].
  subst s. cbn. now rewrite H.
Qed.

(** *** Upper-casing and spelling up to case *)

Lemma upper_is_letter : forall u,
  In u ["H"; "T"; "P"; "S"; "L"]%char ->
  forall c, (upper_ascii c =? u)%char = same_letter u c.
Proof.
  intros u [<- | [<- | [<- | [<- | [<- | []]]]]] c;
    destruct c as [[] [] [] [] [] [] [] []]; reflexivity.
Qed.

Lemma upper_spelled : forall pattern,
  (forall u, In u (list_ascii_of_string pattern) ->
             forall c, (upper_ascii c =? u)%char = same_letter u c) ->
  forall s, (upper s =? pattern)%string = spelled pattern s.
Proof.
  induction pattern as [|u pattern IH]; intros L s; destruct s as [|c s];
    try reflexivity.
  cbn [upper spelled String.eqb].
  rewrite (L u (or_introl eq_refl)), IH; [reflexivity|].
  intros u' I. apply L. now right.
Qed.

Lemma upper_https : forall s, (upper s =? "HTTPS")%string = spelled "HTTPS" s.
Proof.
  apply upper_spelled. intros u I. apply upper_is_letter.
  cbn in I. cbn. intuition.
Qed.

Lemma upper_ssl : forall s, (upper s =? "SSL")%string = spelled "SSL" s.
Proof.
  apply upper_spelled. intros u I. apply upper_is_letter.
  cbn in I. cbn. intuition.
Qed.

(** *** The claims *)

(** C4: rule 1 on the backend sets of a record.  With no backend set the
    score grows by 50 with the one reason "No backend sets configured".
    Otherwise the loop counts a set exactly when it is empty (no backend,
    or every backend offline, a missing offline flag counting as
    offline); when all [n] sets are counted the score grows by 45, when
    [k] of them with [0 < k < n] by 25 with the reason spelling [k/n], and
    when none is counted nothing changes. *)
Theorem backend_set_rule_cases : forall (sets : list (string * BackendSet)) (t : tally),
  let k := count backend_set_empty sets in
  let n := len sets in
  let run := check_backend_sets (encode_backend_sets sets) t in
  (sets = [] ->
   run = Ok {| ghost_score := ghost_score t + 50;
               ghost_reasons := ghost_reasons t ++ ["No backend sets configured"] |}) /\
  (sets <> [] -> k = n ->
   run = Ok {| ghost_score := ghost_score t + 45;
               ghost_reasons :=
                 ghost_reasons t ++ ["All backend sets are empty or offline"] |}) /\
  (sets <> [] -> 0 < k < n ->
   run = Ok {| ghost_score := ghost_score t + 25;
               ghost_reasons :=
                 ghost_reasons t ++
                 ["Some backend sets are empty (" ++ str_of_int k ++ "/"
                  ++ str_of_int n ++ ")"] |}) /\
  (sets <> [] -> k = 0 -> run = Ok t) /\
  check_backend_sets (encode_backend_sets []) start =
    Ok {| ghost_score := 50; ghost_reasons := ["No backend sets configured"] |} /\
  check_backend_sets (encode_backend_sets empty_sets) start =
    Ok {| ghost_score := 45;
          ghost_reasons := ["All backend sets are empty or offline"] |} /\
  check_backend_sets (encode_backend_sets half_empty_sets) start =
    Ok {| ghost_score := 25;
          ghost_reasons := ["Some backend sets are empty (1/2)"] |} /\
  check_backend_sets (encode_backend_sets healthy_sets) start = Ok start /\
  (forall name bs e tb,
     count_empty_backend_sets [(name, encode_backend_set bs)] e tb =
     Ok (e + (if backend_set_empty bs then 1 else 0), tb + len (backends bs))) /\
  (forall bs,
     backend_set_empty bs = true <->
     backends bs = [] \/
     (forall b, In b (backends bs) -> offline b = Some true \/ offline b = None)) /\
  (k = n <-> forall name bs, In (name, bs) sets -> backend_set_empty bs = true) /\
  (k = 0 <-> forall name bs, In (name, bs) sets -> backend_set_empty bs = false).
Proof.
  intros sets t k n run.
  assert (R : run = Ok (backend_set_rule sets t))
    by apply check_backend_sets_encode.
  assert (B : 0 <= k <= n) by apply count_bounds.
  split; [|split; [|split; [|split]]]; [| | | |
    repeat (split; [reflexivity|]);
    split; [|split; [split | split; [apply count_all_iff | apply count_none_iff]]]].
  - intros ->. exact R.
  - intros NE E. rewrite R. unfold backend_set_rule.
    destruct sets; [congruence|]. fold k n.
    destruct (Z.eqb_spec k n); [reflexivity | contradiction].
  - intros NE [K1 K2]. rewrite R. unfold backend_set_rule.
    destruct sets; [congruence|]. fold k n.
    destruct (Z.eqb_spec k n); [lia|].
    destruct (Z.gtb_spec k 0); [reflexivity | lia].
  - intros NE K0. rewrite R. unfold backend_set_rule.
    destruct sets; [congruence|]. fold k n.
    destruct (Z.eqb_spec k n).
    + exfalso. pose proof (len_nonneg _ sets). unfold n in e.
      rewrite len_cons in e. lia.
    + destruct (Z.gtb_spec k 0); [lia | reflexivity].
  - intros name bs e tb. cbn [count_empty_backend_sets].
    rewrite backend_set_empty_filter.
    unfold encode_backend_set.
    cbn [py_get dict_get dict_lookup String.eqb Ascii.eqb Bool.eqb bind].
    destruct (backends bs) as [|b bks].
    + reflexivity.
    + cbn [map truthy negb py_iter bind].
      change (encode_backend b :: map encode_backend bks)
        with (map encode_backend (b :: bks)).
      rewrite healthy_backends_encode. cbn [bind py_len]. rewrite len_map.
      destruct (filter _ (b :: bks)); cbn [map bind]; do 2 f_equal; lia.
  - unfold backend_set_empty. destruct (backends bs) as [|b bks]; [now left|].
    intros H. right. intros b' I.
    rewrite forallb_forall in H. specialize (H b' I).
    unfold backend_offline in H. destruct (offline b') as [[|]|]; auto; discriminate.
  - unfold backend_set_empty. destruct (backends bs) as [|b bks]; [reflexivity|].
    intros [H|H]; [discriminate|].
    apply forallb_forall. intros b' I. unfold backend_offline.
    destruct (H b' I) as [-> | ->]; reflexivity.
Qed.

(** C5: rule 2 on the listeners of a record.  With no listener the score
    grows by 40 with the reason "No listeners configured".  Otherwise the
    loop counts a listener exactly when it is dangling (its default
    backend set name is absent, empty, or not a key of the backend sets);
    when all [n] listeners are counted the score grows by 35, when [k] of
    them with [0 < k < n] by 20 with the reason spelling [k/n], and when
    none is counted nothing changes. *)
Theorem listener_rule_cases :
  forall (sets : list (string * BackendSet)) (ls : list (string * Listener)) (t : tally),
  let k := count (dangling sets) ls in
  let n := len ls in
  let run := check_listeners (encode_backend_sets sets) (encode_listeners ls) t in
  (ls = [] ->
   run = Ok {| ghost_score := ghost_score t + 40;
               ghost_reasons := ghost_reasons t ++ ["No listeners configured"] |}) /\
  (ls <> [] -> k = n ->
   run = Ok {| ghost_score := ghost_score t + 35;
               ghost_reasons :=
                 ghost_reasons t ++ ["All listeners lack valid backend sets"] |}) /\
  (ls <> [] -> 0 < k < n ->
   run = Ok {| ghost_score := ghost_score t + 20;
               ghost_reasons :=
                 ghost_reasons t ++
                 ["Some listeners lack backend sets (" ++ str_of_int k ++ "/"
                  ++ str_of_int n ++ ")"] |}) /\
  (ls <> [] -> k = 0 -> run = Ok t) /\
  check_listeners (encode_backend_sets healthy_sets) (encode_listeners []) start =
    Ok {| ghost_score := 40; ghost_reasons := ["No listeners configured"] |} /\
  check_listeners (encode_backend_sets healthy_sets)
    (encode_listeners [("l1", listener_to "HTTP" None);
                       ("l2", listener_to "HTTP" (Some ""));
                       ("l3", listener_to "HTTP" (Some "gone"))]) start =
    Ok {| ghost_score := 35;
          ghost_reasons := ["All listeners lack valid backend sets"] |} /\
  check_listeners (encode_backend_sets healthy_sets)
    (encode_listeners [("l1", listener_to "HTTP" (Some "bs1"));
                       ("l2", listener_to "HTTP" (Some "gone"))]) start =
    Ok {| ghost_score := 20;
          ghost_reasons := ["Some listeners lack backend sets (1/2)"] |} /\
  check_listeners (encode_backend_sets healthy_sets)
    (encode_listeners [("l1", listener_to "HTTP" (Some "bs1"))]) start = Ok start /\
  (forall name l c,
     count_listeners_without_backends (encode_backend_sets sets)
       [(name, encode_listener l)] c =
     Ok (c + (if dangling sets l then 1 else 0))) /\
  (forall l,
     dangling sets l = true <->
     default_backend_set_name l = None \/
     default_backend_set_name l = Some "" \/
     (exists name, default_backend_set_name l = Some name /\ has_key sets name = false)) /\
  (k = n <-> forall name l, In (name, l) ls -> dangling sets l = true) /\
  (k = 0 <-> forall name l, In (name, l) ls -> dangling sets l = false).
Proof.
  intros sets ls t k n run.
  assert (R : run = Ok (listener_rule sets ls t))
    by apply check_listeners_encode.
  assert (B : 0 <= k <= n) by apply count_bounds.
  split; [|split; [|split; [|split]]]; [| | | |
    repeat (split; [reflexivity|]);
    split; [|split; [split | split; [apply count_all_iff | apply count_none_iff]]]].
  - intros ->. exact R.
  - intros NE E. rewrite R. unfold listener_rule.
    destruct ls; [congruence|]. fold k n.
    destruct (Z.eqb_spec k n); [reflexivity | contradiction].
  - intros NE [K1 K2]. rewrite R. unfold listener_rule.
    destruct ls; [congruence|]. fold k n.
    destruct (Z.eqb_spec k n); [lia|].
    destruct (Z.gtb_spec k 0); [reflexivity | lia].
  - intros NE K0. rewrite R. unfold listener_rule.
    destruct ls as [|p ls]; [congruence|]. fold k n.
    destruct (Z.eqb_spec k n).
    + exfalso. pose proof (len_nonneg _ ls). unfold n in e.
      rewrite len_cons in e. lia.
    + destruct (Z.gtb_spec k 0); [lia | reflexivity].
  - intros name l c.
    change [(name, encode_listener l)] with (encode_map encode_listener [(name, l)]).
    rewrite count_listeners_without_backends_encode, count_cons, count_nil.
    f_equal. lia.
  - unfold dangling. destruct (default_backend_set_name l) as [name|]; [|now left].
    intros H. apply orb_true_iff in H. destruct H as [H|H].
    + right. left. apply String.eqb_eq in H. now subst.
    + right. right. exists name. split; [reflexivity|].
      now apply negb_true_iff in H.
  - unfold dangling. intros [H | [H | [name [H K]]]]; rewrite H; [reflexivity.. |].
    rewrite K. apply orb_true_r.
Qed.

Section Claims.

Variable repr : pyval -> string.
Variable exn_str : exn -> string.
Variable fromisoformat : string -> option datetime.

(** C3: the status is derived from the final score by a total ladder read
    from the top, each tier closed below: at least 80 is DEFINITE_GHOST,
    60 to 79 LIKELY_GHOST, 40 to 59 SUSPICIOUS, 20 to 39 REVIEW_NEEDED and
    anything under 20 ACTIVE; so 80 is DEFINITE_GHOST, 79 LIKELY_GHOST, 40
    SUSPICIOUS, 20 REVIEW_NEEDED and 19 ACTIVE.  Whenever the body of the
    method returns, the status of its verdict is the ladder's answer for
    the score of that verdict. *)
Theorem status_ladder :
  (forall s : Z,
     (80 <= s -> determine_ghost_status s = status_label DEFINITE_GHOST) /\
     (60 <= s < 80 -> determine_ghost_status s = status_label LIKELY_GHOST) /\
     (40 <= s < 60 -> determine_ghost_status s = status_label SUSPICIOUS) /\
     (20 <= s < 40 -> determine_ghost_status s = status_label REVIEW_NEEDED) /\
     (s < 20 -> determine_ghost_status s = status_label ACTIVE) /\
     (exists tier,
        tier <> ANALYSIS_FAILED /\ determine_ghost_status s = status_label tier)) /\
  determine_ghost_status 80 = status_label DEFINITE_GHOST /\
  determine_ghost_status 79 = status_label LIKELY_GHOST /\
  determine_ghost_status 40 = status_label SUSPICIOUS /\
  determine_ghost_status 20 = status_label REVIEW_NEEDED /\
  determine_ghost_status 19 = status_label ACTIVE /\
  (forall lb_data compartment_name lb_type now,
     match analyze repr fromisoformat lb_data compartment_name lb_type now with
     | Ok v => GhostStatus v = determine_ghost_status (GhostScore v)
     | Raise _ => True
     end).
Proof.
  split; [|repeat split].
  - intros s. unfold determine_ghost_status.
    repeat split; try (intros H;
      repeat match goal with
      | |- context [?a >=? ?b] => destruct (Z.geb_spec a b); try lia
      end; reflexivity).
    apply status_ladder_tiers.
  - intros lb_data c ty now. unfold analyze.
    repeat match goal with
    | |- context [bind ?x _] => destruct x; cbn [bind]; [|exact I]
    end.
    reflexivity.
Qed.

(** C1, as amended: scenario B (a Network load balancer whose only backend
    set holds two offline backends, with one listener pointing to that
    set, state ACTIVE, no creation time) scores 45, from the single reason
    "All backend sets are empty or offline", and its status is
    SUSPICIOUS. *)
Theorem scenario_B_verdict : forall compartment_name now,
  let v := classify repr exn_str fromisoformat scenario_B compartment_name now in
  GhostScore v = 45 /\
  GhostReasons v = "All backend sets are empty or offline" /\
  GhostStatus v = status_label SUSPICIOUS.
Proof.
  intros c now v. repeat split; reflexivity.
Qed.

(** C2: the method returns a verdict for every dict.  When the body raises
    [e], the verdict has status ANALYSIS_FAILED, score 0 and the reason
    "Error during analysis: " followed by the description of [e];
    otherwise it is the verdict of the body.  On a record of the data
    model the body does not raise; on a dict whose backend sets are a list
    it does. *)
Theorem analysis_always_returns :
  (forall lb_data compartment_name lb_type now,
     let v := analyze_load_balancer_health repr exn_str fromisoformat
                lb_data compartment_name lb_type now in
     match analyze repr fromisoformat lb_data compartment_name lb_type now with
     | Ok v' => v = v'
     | Raise e =>
         GhostStatus v = status_label ANALYSIS_FAILED /\
         GhostScore v = 0 /\
         GhostReasons v = "Error during analysis: " ++ exn_str e
     end) /\
  (forall r compartment_name now,
     exists v,
       analyze repr fromisoformat (encode r) compartment_name (kind_label (lb_type r)) now
         = Ok v /\
       classify repr exn_str fromisoformat r compartment_name now = v /\
       GhostStatus v <> status_label ANALYSIS_FAILED) /\
  (forall compartment_name lb_type now,
     let v := analyze_load_balancer_health repr exn_str fromisoformat
                malformed compartment_name lb_type now in
     GhostStatus v = status_label ANALYSIS_FAILED /\
     GhostScore v = 0 /\
     GhostReasons v = "Error during analysis: " ++ exn_str (AttributeError "list" "items")).
Proof.
  split; [|split].
  - intros lb_data c ty now v. subst v. unfold analyze_load_balancer_health.
    destruct (analyze repr fromisoformat lb_data c ty now); cbn; auto.
  - intros r c now.
    destruct (analyze_encode repr fromisoformat r c now) as [v [E [_ [_ [S _]]]]].
    exists v. split; [exact E|]. split.
    + unfold classify, analyze_load_balancer_health. now rewrite E.
    + rewrite S.
      destruct (status_ladder_tiers (ghost_score (rules fromisoformat now r)))
        as [tier [NF ->]].
      destruct tier; try discriminate. congruence.
  - intros c ty now v. repeat split; reflexivity.
Qed.

(** C6: rule 3.  The score grows by 15, with the reason "HTTPS listeners
    without SSL certificates", exactly when the load balancer is Classic,
    has no certificate, and some listener has a protocol that upper-cases
    to HTTPS or SSL, that is, spells HTTPS or SSL with each letter in
    either case; a Network load balancer never gets it.  So https and Ssl
    trigger it, http and HTTPSX do not.  Scenario C (a Classic load
    balancer with one healthy backend set, one HTTPS listener pointing to
    it, no certificate, state ACTIVE) scores 15 and is ACTIVE. *)
Theorem certificate_gap_rule :
  (forall k certs ls t,
     check_ssl_certificates (kind_label k) (PDict certs) (encode_listeners ls) t =
     Ok (if certificate_gap k certs ls
         then {| ghost_score := ghost_score t + 15;
                 ghost_reasons :=
                   ghost_reasons t ++ ["HTTPS listeners without SSL certificates"] |}
         else t)) /\
  (forall k certs ls,
     certificate_gap k certs ls = true <->
     k = Classic /\ certs = [] /\
     exists name l, In (name, l) ls /\
                    (upper (protocol l) = "HTTPS" \/ upper (protocol l) = "SSL")) /\
  (forall certs ls t,
     check_ssl_certificates (kind_label Network) (PDict certs) (encode_listeners ls) t
     = Ok t) /\
  (forall compartment_name now,
     let v := classify repr exn_str fromisoformat scenario_C compartment_name now in
     GhostScore v = 15 /\
     GhostReasons v = "HTTPS listeners without SSL certificates" /\
     GhostStatus v = status_label ACTIVE) /\
  (forall s, upper s = "HTTPS" <-> spelled "HTTPS" s = true) /\
  (forall s, upper s = "SSL" <-> spelled "SSL" s = true) /\
  (forall k certs ls,
     certificate_gap k certs ls = true <->
     k = Classic /\ certs = [] /\
     exists name l, In (name, l) ls /\
                    (spelled "HTTPS" (protocol l) = true \/
                     spelled "SSL" (protocol l) = true)) /\
  check_ssl_certificates "Classic" (PDict [])
    (encode_listeners [("l1", listener_to "https" (Some "bs1"))]) start =
    Ok {| ghost_score := 15;
          ghost_reasons := ["HTTPS listeners without SSL certificates"] |} /\
  check_ssl_certificates "Classic" (PDict [])
    (encode_listeners [("l1", listener_to "tcp" (Some "bs1"));
                       ("l2", listener_to "Ssl" (Some "bs1"))]) start =
    Ok {| ghost_score := 15;
          ghost_reasons := ["HTTPS listeners without SSL certificates"] |} /\
  check_ssl_certificates "Classic" (PDict [])
    (encode_listeners [("l1", listener_to "http" (Some "bs1"));
                       ("l2", listener_to "HTTPSX" (Some "bs1"))]) start = Ok start /\
  check_ssl_certificates "Network" (PDict [])
    (encode_listeners [("l1", listener_to "https" (Some "bs1"))]) start = Ok start /\
  check_ssl_certificates "Classic" (PDict [("cert1", PDict [])])
    (encode_listeners [("l1", listener_to "https" (Some "bs1"))]) start = Ok start.
Proof.
  assert (U1 : forall s, upper s = "HTTPS" <-> spelled "HTTPS" s = true).
  { intros s. rewrite <- upper_https. symmetry. apply String.eqb_eq. }
  assert (U2 : forall s, upper s = "SSL" <-> spelled "SSL" s = true).
  { intros s. rewrite <- upper_ssl. symmetry. apply String.eqb_eq. }
  assert (G : forall k certs ls,
            certificate_gap k certs ls = true <->
            k = Classic /\ certs = [] /\
            exists name l, In (name, l) ls /\
                           (upper (protocol l) = "HTTPS" \/ upper (protocol l) = "SSL")).
  { intros k certs ls. unfold certificate_gap. split.
    + destruct k; [|discriminate]. destruct certs; [|discriminate].
      intros H. apply existsb_exists in H. destruct H as [[name l] [I S]].
      repeat split. exists name, l. split; [exact I|].
      unfold secure_protocol in S. cbn [snd] in S.
      apply orb_true_iff in S. destruct S as [S|S]; apply String.eqb_eq in S; auto.
    + intros [-> [-> [name [l [I S]]]]].
      apply existsb_exists. exists (name, l). split; [exact I|].
      unfold secure_protocol. cbn [snd]. apply orb_true_iff.
      destruct S as [S|S]; rewrite S; auto. }
  split; [|split; [|split; [|split; [|split; [|split; [|split]]]]]].
  - intros k certs ls t. apply check_ssl_certificates_encode.
  - exact G.
  - intros certs ls t. reflexivity.
  - intros c now v. repeat split; reflexivity.
  - exact U1.
  - exact U2.
  - intros k certs ls. rewrite G. split.
    + intros [K [C [name [l [I S]]]]]. repeat split; try assumption.
      exists name, l. split; [exact I|]. rewrite <- U1, <- U2. exact S.
    + intros [K [C [name [l [I S]]]]]. repeat split; try assumption.
      exists name, l. split; [exact I|]. rewrite U1, U2. exact S.
  - repeat split; reflexivity.
Qed.

(** C7, as amended: rule 5.  Given that the empty string is not a
    timestamp, the score grows by 10, with the reason "Created {days} days
    ago with issues", exactly when the creation time is present, parses to
    a timestamp that carries a UTC offset, lies more than 30 whole days
    before [now], and the score reached by rules 1 to 4 is more than 40.
    An absent or unparsable creation time changes nothing, nor does one
    without UTC offset (the subtraction from [now] raises and the bare
    [except] swallows it), nor any age on a score of 0.  So the aged load
    balancer, which scores 90, gets the bonus 31 days after its creation
    but not a microsecond earlier, whatever the zone of its timestamp. *)
Theorem stale_bonus_rule :
  fromisoformat "" = None ->
  forall now r t,
  let age := age_in_days fromisoformat now (time_created r) in
  let run := check_recent_activity fromisoformat now
               (dict_get (encode r) "time_created" PNone) t in
  (forall s created_date off,
     time_created r = Some s ->
     fromisoformat (replace "Z"%char "+00:00" s) = Some created_date ->
     utcoffset_us created_date = Some off ->
     age = Some ((now - (wall_us created_date - off)) / 86400000000)) /\
  (forall d, age = Some d -> 30 < d -> 40 < ghost_score t ->
     run = {| ghost_score := ghost_score t + 10;
              ghost_reasons :=
                ghost_reasons t ++
                ["Created " ++ str_of_int d ++ " days ago with issues"] |}) /\
  (forall d, age = Some d -> d <= 30 \/ ghost_score t <= 40 -> run = t) /\
  (age = None -> run = t) /\
  (time_created r = None -> run = t) /\
  (forall s, time_created r = Some s ->
     fromisoformat (replace "Z"%char "+00:00" s) = None -> run = t) /\
  (forall s created_date, time_created r = Some s ->
     fromisoformat (replace "Z"%char "+00:00" s) = Some created_date ->
     utcoffset_us created_date = None -> run = t) /\
  (ghost_score t = 0 -> run = t) /\
  (forall compartment_name,
     let v := classify repr exn_str fromisoformat r compartment_name now in
     (GhostScore v = ghost_score (rules_1_to_4 r) \/
      GhostScore v = ghost_score (rules_1_to_4 r) + 10) /\
     (GhostScore v = ghost_score (rules_1_to_4 r) + 10 <->
      exists s created_date off,
        time_created r = Some s /\
        fromisoformat (replace "Z"%char "+00:00" s) = Some created_date /\
        utcoffset_us created_date = Some off /\
        30 < (now - (wall_us created_date - off)) / 86400000000 /\
        40 < ghost_score (rules_1_to_4 r))) /\
  (let v := classify sample_repr sample_exn_str zoned_fromisoformat
              aged "root" (after_2024 31 0) in
   GhostScore v = 100 /\
   GhostReasons v = "No backend sets configured; No listeners configured; Created 31 days ago with issues") /\
  GhostScore (classify sample_repr sample_exn_str zoned_fromisoformat
                aged "root" (after_2024 30 86399999999)) = 90 /\
  GhostScore (classify sample_repr sample_exn_str zoned_fromisoformat
                (aged_as "2024-01-01T02:00:00+02:00") "root" (after_2024 31 0)) = 100 /\
  GhostScore (classify sample_repr sample_exn_str zoned_fromisoformat
                (aged_as "2024-01-01T02:00:00+02:00") "root"
                (after_2024 30 86399999999)) = 90 /\
  GhostScore (classify sample_repr sample_exn_str zoned_fromisoformat
                (aged_as "not a date") "root" (after_2024 100 0)) = 90.
Proof.
  intros P now r t age run.
  assert (R : run = stale_rule age t).
  { subst run age. rewrite check_recent_activity_encode.
    now rewrite age_of_creation_time. }
  assert (N : age = None -> run = t) by (intros E; rewrite R, E; reflexivity).
  assert (A : forall s created_date off,
            time_created r = Some s ->
            fromisoformat (replace "Z"%char "+00:00" s) = Some created_date ->
            utcoffset_us created_date = Some off ->
            age = Some ((now - (wall_us created_date - off)) / 86400000000)).
  { intros s dt off E F O. subst age. rewrite E. cbn [age_in_days]. rewrite F.
    unfold days_between. rewrite O. reflexivity. }
  split; [exact A|].
  split; [|split; [|split; [|split; [|split; [|split; [|split; [|split]]]]]]].
  - intros d E D S. rewrite R, E. cbn [stale_rule].
    destruct (Z.gtb_spec d 30); [|lia].
    destruct (Z.gtb_spec (ghost_score t) 40); [reflexivity | lia].
  - intros d E H. rewrite R, E. cbn [stale_rule].
    destruct (Z.gtb_spec d 30); destruct (Z.gtb_spec (ghost_score t) 40);
      try reflexivity. lia.
  - exact N.
  - intros E. apply N. subst age. now rewrite E.
  - intros s E F. apply N. subst age. rewrite E. cbn. now rewrite F.
  - intros s dt E F O. apply N. subst age. rewrite E. cbn. rewrite F.
    unfold days_between. now rewrite O.
  - intros S. rewrite R. unfold stale_rule. destruct age as [d|]; [|reflexivity].
    rewrite S. change (0 >? 40) with false. now rewrite andb_false_r.
  - intros c v.
    destruct (analyze_encode repr fromisoformat r c now) as [v' [E [S _]]].
    assert (V : GhostScore v = ghost_score (stale_rule age (rules_1_to_4 r))).
    { subst v. unfold classify, analyze_load_balancer_health. rewrite E, S.
      unfold rules. now rewrite age_of_creation_time by exact P. }
    rewrite V. clear V. unfold stale_rule. split.
    + destruct age as [d|]; [|now left].
      destruct (_ && _); [right | left]; reflexivity.
    + split.
      * destruct age as [d|] eqn:G; [|cbn; lia].
        destruct (Z.gtb_spec d 30) as [D|D];
          destruct (Z.gtb_spec (ghost_score (rules_1_to_4 r)) 40) as [K|K];
          cbn [andb flag ghost_score]; try lia.
        intros _. subst age. unfold age_in_days in G.
        destruct (time_created r) as [s|]; [|discriminate].
        destruct (fromisoformat (replace "Z"%char "+00:00" s)) as [dt|] eqn:F;
          [|discriminate].
        unfold days_between in G.
        destruct (utcoffset_us dt) as [off|] eqn:O; [|discriminate].
        injection G as <-. exists s, dt, off. repeat split; assumption.
      * intros [s [dt [off [E1 [F [O [D K]]]]]]].
        rewrite (A s dt off E1 F O).
        destruct (Z.gtb_spec ((now - (wall_us dt - off)) / 86400000000) 30); [|lia].
        destruct (Z.gtb_spec (ghost_score (rules_1_to_4 r)) 40); [|lia].
        reflexivity.
  - repeat split; reflexivity.
Qed.

(** C8: the verdict is a function of the record, the compartment name, the
    type and the current time alone: two analyses of the same arguments
    agree on every field, and in a run of the scanner every verdict
    appended is the verdict of its own resource, whatever was analysed
    before it. *)
Theorem classification_is_deterministic :
  (forall lb_data compartment_name lb_type now v1 v2,
     v1 = analyze_load_balancer_health repr exn_str fromisoformat
            lb_data compartment_name lb_type now ->
     v2 = analyze_load_balancer_health repr exn_str fromisoformat
            lb_data compartment_name lb_type now ->
     v1 = v2) /\
  (forall before xs,
     scan repr exn_str fromisoformat before xs =
     (before ++ map (fun x => analyze_load_balancer_health repr exn_str fromisoformat
                                (res_data x) (res_compartment x) (res_type x) (res_now x))
                    xs)%list) /\
  (forall before before' xs i,
     nth_error (scan repr exn_str fromisoformat before xs) (List.length before + i) =
     nth_error (scan repr exn_str fromisoformat before' xs) (List.length before' + i)).
Proof.
  split; [|split].
  - intros. congruence.
  - intros. apply scan_app.
  - intros before before' xs i. rewrite !scan_app.
    rewrite !nth_error_app2 by lia.
    f_equal; lia.
Qed.


(** C10: a record without lifecycle state is scored as being in state
    UNKNOWN: rule 4 adds 30 with the reason "Load balancer in UNKNOWN
    state", the verdict reports the state UNKNOWN, scores at least 30,
    lists that reason, and is never ACTIVE. *)
Theorem missing_lifecycle_state : forall r compartment_name now,
  lifecycle_state r = None ->
  let v := classify repr exn_str fromisoformat r compartment_name now in
  (forall t,
     check_lifecycle_state repr (dict_get (encode r) "lifecycle_state" (PStr "UNKNOWN")) t
     = flag 30 "Load balancer in UNKNOWN state" t) /\
  LifecycleState v = PStr "UNKNOWN" /\
  30 <= GhostScore v /\
  (exists reasons,
     GhostReasons v = join reasons /\ In "Load balancer in UNKNOWN state" reasons) /\
  GhostStatus v <> status_label ACTIVE.
Proof.
  intros r c now L v.
  assert (U : state_of r = "UNKNOWN") by (unfold state_of; now rewrite L).
  destruct (analyze_encode repr fromisoformat r c now) as [v' [E [S [G [T LS]]]]].
  assert (V : v = v').
  { subst v. unfold classify, analyze_load_balancer_health. now rewrite E. }
  rewrite V.
  destruct (rules_points fromisoformat now r)
    as [p1 [p2 [p3 [p4 [p5 [P [P4 [I1 [I2 [I3 [I4 I5]]]]]]]]]]].
  assert (F : rules_1_to_4 r =
              flag 30 "Load balancer in UNKNOWN state"
                (certificate_rule (lb_type r) (certificates r) (listeners r)
                   (listener_rule (backend_sets r) (listeners r)
                      (backend_set_rule (backend_sets r) start)))).
  { unfold rules_1_to_4. rewrite U. reflexivity. }
  assert (B : 30 <= ghost_score (rules fromisoformat now r)).
  { destruct (backend_set_rule_points (backend_sets r) start) as [q1 [J1 E1]].
    destruct (listener_rule_points (backend_sets r) (listeners r)
                (backend_set_rule (backend_sets r) start)) as [q2 [J2 E2]].
    destruct (certificate_rule_points (lb_type r) (certificates r) (listeners r)
                (listener_rule (backend_sets r) (listeners r)
                   (backend_set_rule (backend_sets r) start))) as [q3 [J3 E3]].
    destruct (stale_rule_points (age_in_days fromisoformat now (creation_time r))
                (rules_1_to_4 r)) as [q5 [J5 E5]].
    unfold rules. rewrite E5, F, flag_score, E3, E2, E1.
    change (ghost_score start) with 0.
    cbn [In] in J1, J2, J3, J5. lia. }
  repeat split.
  - intros t. rewrite get_lifecycle_state, U. reflexivity.
  - rewrite LS, U. reflexivity.
  - rewrite S. exact B.
  - exists (ghost_reasons (rules fromisoformat now r)). split; [exact G|].
    unfold rules. apply reasons_after_stale_rule. rewrite F.
    cbn. apply in_or_app. right. now left.
  - rewrite T. apply not_active_from_20. lia.
Qed.

End Claims.

(** *** Concrete runs *)

(** C1, as claimed, fails: scenario B scores 45, and 45 is SUSPICIOUS, not
    LIKELY_GHOST. *)
Lemma scenario_B_is_not_likely_ghost :
  ~ (GhostScore (classify sample_repr sample_exn_str sample_fromisoformat
                   scenario_B "root" 0) = 45 /\
     GhostStatus (classify sample_repr sample_exn_str sample_fromisoformat
                    scenario_B "root" 0) = status_label LIKELY_GHOST).
Proof.
  intros [_ H]. vm_compute in H. discriminate H.
Qed.

(** C7, as claimed, fails: the aged load balancer with its creation time
    written without UTC offset has a creation time that is present and
    parses, to midnight of 2024-01-01; a hundred days later its rules 1
    to 4 score 90; and it gets no bonus. *)
Lemma offsetless_timestamp_gets_no_bonus :
  time_created (aged_as "2024-01-01T00:00:00") = Some "2024-01-01T00:00:00" /\
  zoned_fromisoformat (replace "Z"%char "+00:00" "2024-01-01T00:00:00") =
    Some {| wall_us := 1704067200 * 1000000; utcoffset_us := None |} /\
  (after_2024 100 0 - 1704067200 * 1000000) / 86400000000 = 100 /\
  ghost_score (rules_1_to_4 (aged_as "2024-01-01T00:00:00")) = 90 /\
  GhostScore (classify sample_repr sample_exn_str zoned_fromisoformat
                (aged_as "2024-01-01T00:00:00") "root" (after_2024 100 0)) = 90 /\
  GhostReasons (classify sample_repr sample_exn_str zoned_fromisoformat
                  (aged_as "2024-01-01T00:00:00") "root" (after_2024 100 0)) =
    "No backend sets configured; No listeners configured".
Proof.
  repeat split; reflexivity.
Qed.

(** C7 at work: the aged load balancer scores 90 from rules 1 to 4 and,
    a hundred days on, receives the bonus. *)
Lemma stale_bonus_rule_witness :
  sample_fromisoformat "" = None /\
  GhostScore (classify sample_repr sample_exn_str sample_fromisoformat
                aged "root" hundred_days_later) = 100.
Proof.
  split; [reflexivity|].
  pose proof (stale_bonus_rule sample_repr sample_exn_str sample_fromisoformat
                eq_refl hundred_days_later aged start) as H.
  cbv zeta in H.
  destruct H as [_ [_ [_ [_ [_ [_ [_ [_ [H _]]]]]]]]].
  destruct (H "root") as [_ [_ B]].
  apply B.
  exists "2024-01-01T00:00:00Z",
         {| wall_us := 1704067200 * 1000000; utcoffset_us := Some 0 |}, 0.
  repeat split; try reflexivity.
Defined.

(** C10 at work: the record without lifecycle state. *)
Lemma missing_lifecycle_state_witness :
  lifecycle_state stateless = None /\
  LifecycleState (classify sample_repr sample_exn_str sample_fromisoformat
                    stateless "root" 0) = PStr "UNKNOWN".
Proof.
  split; [reflexivity|].
  apply (missing_lifecycle_state sample_repr sample_exn_str sample_fromisoformat
           stateless "root" 0 eq_refl).
Defined.

(** ** Beyond the claims *)

(** *** What a rule can do to the tally *)

Ltac flagged := apply grows_flag; [lia | discriminate].

Lemma check_backend_sets_grows : forall backend_sets t t',
  check_backend_sets backend_sets t = Ok t' -> grows t t'.
Proof.
  intros bs t t'. unfold check_backend_sets.
  destruct (negb (truthy bs)).
  - intros [= <-]. flagged.
  - destruct (py_items bs) as [items|]; cbn [bind]; [|discriminate].
    destruct (count_empty_backend_sets items 0 0) as [[e tb]|]; cbn [bind fst];
      [|discriminate].
    destruct (py_len bs) as [n|]; cbn [bind]; [|discriminate].
    destruct (e =? n); [intros [= <-]; flagged|].
    destruct (e >? 0); intros [= <-]; [flagged | constructor].
Qed.

Lemma check_listeners_grows : forall backend_sets listeners t t',
  check_listeners backend_sets listeners t = Ok t' -> grows t t'.
Proof.
  intros bs ls t t'. unfold check_listeners.
  destruct (negb (truthy ls)).
  - intros [= <-]. flagged.
  - destruct (py_items ls) as [items|]; cbn [bind]; [|discriminate].
    destruct (count_listeners_without_backends bs items 0) as [k|]; cbn [bind];
      [|discriminate].
    destruct (py_len ls) as [n|]; cbn [bind]; [|discriminate].
    destruct (k =? n); [intros [= <-]; flagged|].
    destruct (k >? 0); intros [= <-]; [flagged | constructor].
Qed.

Lemma check_ssl_certificates_grows : forall lb_type certificates listeners t t',
  check_ssl_certificates lb_type certificates listeners t = Ok t' -> grows t t'.
Proof.
  intros ty cs ls t t'. unfold check_ssl_certificates.
  destruct (_ && _); [|intros [= <-]; constructor].
  destruct (py_values ls) as [vs|]; cbn [bind]; [|discriminate].
  destruct (https_listeners vs) as [[|h hs]|]; cbn [bind]; [| |discriminate];
    intros [= <-]; [constructor | flagged].
Qed.

Lemma check_lifecycle_state_grows : forall repr lifecycle_state t,
  grows t (check_lifecycle_state repr lifecycle_state t).
Proof.
  intros repr ls t. unfold check_lifecycle_state.
  destruct (negb _); [flagged | constructor].
Qed.

Lemma check_recent_activity_grows : forall fromisoformat now time_created t,
  grows t (check_recent_activity fromisoformat now time_created t).
Proof.
  intros f now tc t. unfold check_recent_activity.
  destruct (truthy tc); [|constructor].
  destruct (days_old f now tc) as [d|]; [|constructor].
  destruct (_ && _); [flagged | constructor].
Qed.

Lemma flagged_times_start : flagged_times 0 start.
Proof. repeat split; cbn; try lia. constructor. Qed.

Lemma flagged_times_grows : forall n t t',
  flagged_times n t -> grows t t' ->
  flagged_times n t' \/ flagged_times (n + 1) t'.
Proof.
  intros n t t' [L [S F]] G. destruct G as [|p reason P R]; [left; now repeat split|].
  right. unfold flagged_times. cbn [flag ghost_score ghost_reasons].
  split; [|split].
  - unfold len in *. rewrite length_app. cbn [List.length]. lia.
  - lia.
  - apply Forall_app. split; [exact F | now constructor].
Qed.

Lemma join_empty : forall reasons,
  Forall (fun reason => reason <> "") reasons ->
  (join reasons = "" <-> reasons = []).
Proof.
  intros reasons F. split; [|intros ->; reflexivity].
  destruct reasons as [|r rs]; [reflexivity|].
  inversion F as [|? ? R _]; subst. unfold join. cbn [String.concat].
  intros H. exfalso. apply R.
  destruct rs; [exact H|].
  destruct r; [reflexivity | discriminate].
Qed.

(** The scored fields of a verdict the body returns come from a tally that
    five rules have grown from the start. *)
Lemma analyze_tally : forall repr fromisoformat lb_data compartment_name lb_type now v,
  analyze repr fromisoformat lb_data compartment_name lb_type now = Ok v ->
  exists n t,
    0 <= n <= 5 /\ flagged_times n t /\
    GhostScore v = ghost_score t /\
    GhostReasons v = join (ghost_reasons t) /\
    GhostStatus v = determine_ghost_status (ghost_score t).
Proof.
  intros repr f d c ty now v. unfold analyze.
  destruct (check_backend_sets _ _) as [t1|] eqn:E1; cbn [bind]; [|discriminate].
  destruct (check_listeners _ _ _) as [t2|] eqn:E2; cbn [bind]; [|discriminate].
  destruct (check_ssl_certificates _ _ _ _) as [t3|] eqn:E3; cbn [bind]; [|discriminate].
  set (t4 := check_lifecycle_state repr _ t3).
  set (t5 := check_recent_activity f now _ t4).
  repeat match goal with
  | |- context [bind ?x _] => destruct x; cbn [bind]; [|discriminate]
  end.
  intros [= <-]. cbn.
  apply check_backend_sets_grows in E1.
  apply check_listeners_grows in E2.
  apply check_ssl_certificates_grows in E3.
  assert (E4 : grows t3 t4) by apply check_lifecycle_state_grows.
  assert (E5 : grows t4 t5) by apply check_recent_activity_grows.
  pose proof flagged_times_start as F0.
  destruct (flagged_times_grows _ _ _ F0 E1) as [F1|F1];
  destruct (flagged_times_grows _ _ _ F1 E2) as [F2|F2];
  destruct (flagged_times_grows _ _ _ F2 E3) as [F3|F3];
  destruct (flagged_times_grows _ _ _ F3 E4) as [F4|F4];
  destruct (flagged_times_grows _ _ _ F4 E5) as [F5|F5];
  eexists; exists t5; (split; [|split; [exact F5 | auto]]); lia.
Qed.

(** *** Verdicts and the run *)

Lemma method_coherent : forall repr exn_str fromisoformat lb_data compartment_name lb_type now,
  coherent (analyze_load_balancer_health repr exn_str fromisoformat
              lb_data compartment_name lb_type now).
Proof.
  intros repr e f d c ty now. unfold analyze_load_balancer_health.
  destruct (analyze repr f d c ty now) as [v|x] eqn:E.
  - right. destruct (analyze_tally _ _ _ _ _ _ _ E) as [n [t [N [[_ [S _]] [GS [_ ST]]]]]].
    rewrite ST, GS. split; [lia | reflexivity].
  - left. split; reflexivity.
Qed.

Lemma failed_analysis_coherent : forall lb_name compartment_name lb_type error_msg lb_id,
  coherent (failed_analysis lb_name compartment_name lb_type error_msg lb_id).
Proof. intros. left. split; reflexivity. Qed.

Lemma suspicious_snoc : forall all v,
  suspicious (all ++ [v]) =
  (suspicious all ++ if GhostScore v >=? 40 then [v] else [])%list.
Proof. intros all v. unfold suspicious. rewrite filter_app. reflexivity. Qed.

Lemma len_app : forall (A : Type) (l1 l2 : list A), len (l1 ++ l2) = len l1 + len l2.
Proof. intros. unfold len. rewrite length_app. lia. Qed.

Lemma analyze_listed_in_step : forall repr exn_str fromisoformat lb_type name pending h lb,
  in_step pending h ->
  in_step (pending - 1) (analyze_listed repr exn_str fromisoformat lb_type name h lb).
Proof.
  intros repr e f ty name k h lb [G [T C]]. unfold analyze_listed.
  destruct (listed_dict lb) as [msg|d]; unfold in_step;
    cbn [all_load_balancers total_load_balancers total_ghosts];
    rewrite suspicious_snoc, !len_app.
  - cbn [GhostScore failed_analysis]. change (0 >=? 40) with false.
    rewrite len_nil, len_cons, len_nil. repeat split; try lia.
    apply Forall_app. split; [exact C|]. constructor; [|constructor].
    apply failed_analysis_coherent.
  - destruct (GhostScore _ >=? 40); rewrite ?len_nil, ?len_cons, ?len_nil;
      (repeat split; try lia);
      (apply Forall_app; split; [exact C|]; constructor; [|constructor];
       apply method_coherent).
Qed.

Lemma analyze_all_in_step : forall repr exn_str fromisoformat lb_type name lbs pending h,
  in_step pending h ->
  in_step (pending - len lbs)
    (fold_left (analyze_listed repr exn_str fromisoformat lb_type name) lbs h).
Proof.
  intros repr e f ty name. induction lbs as [|lb lbs IH]; intros k h H; cbn [fold_left].
  - rewrite len_nil, Z.sub_0_r. exact H.
  - rewrite len_cons.
    replace (k - (len lbs + 1)) with (k - 1 - len lbs) by lia.
    apply IH. now apply analyze_listed_in_step.
Qed.

Lemma scan_compartment_in_step : forall repr exn_str fromisoformat h c,
  in_step 0 h -> in_step 0 (scan_compartment repr exn_str fromisoformat h c).
Proof.
  intros repr e f h c [G [T C]]. unfold scan_compartment.
  set (n := len (classic_lbs c) + len (network_lbs c)).
  set (h1 := {| all_load_balancers := all_load_balancers h;
                total_load_balancers := total_load_balancers h + n;
                total_ghosts := total_ghosts h |}).
  assert (H1 : in_step n h1) by (repeat split; cbn; [exact G | lia | exact C]).
  destruct (Z.eqb_spec n 0) as [Z|NZ]; [now rewrite Z in H1|].
  replace 0 with (n - len (classic_lbs c) - len (network_lbs c)) by (unfold n; lia).
  now do 2 apply analyze_all_in_step.
Qed.

Lemma scan_compartments_in_step : forall repr exn_str fromisoformat compartments h,
  in_step 0 h ->
  in_step 0 (fold_left (scan_compartment repr exn_str fromisoformat) compartments h).
Proof.
  intros repr e f. induction compartments as [|c cs IH]; intros h H; cbn [fold_left].
  - exact H.
  - apply IH. now apply scan_compartment_in_step.
Qed.

(** A score of 40 or more has one of the three top tiers. *)
Lemma top_tiers_from_40 : forall s,
  40 <= s ->
  determine_ghost_status s = status_label DEFINITE_GHOST \/
  determine_ghost_status s = status_label LIKELY_GHOST \/
  determine_ghost_status s = status_label SUSPICIOUS.
Proof.
  intros s H. unfold determine_ghost_status.
  destruct (Z.geb_spec s 80); [now left|].
  destruct (Z.geb_spec s 60); [now right; left|].
  destruct (Z.geb_spec s 40); [now right; right | lia].
Qed.

Lemma filter_within : forall (A : Type) (p q : A -> bool) (l : list A),
  (forall x, p x = true -> q x = true) ->
  filter p (filter q l) = filter p l.
Proof.
  intros A p q l H. induction l as [|x l IH]; [reflexivity|].
  cbn [filter]. destruct (q x) eqn:Q; cbn [filter].
  - now rewrite IH.
  - destruct (p x) eqn:P; [|exact IH].
    apply H in P. congruence.
Qed.

Section Extras.

Variable repr : pyval -> string.
Variable exn_str : exn -> string.
Variable fromisoformat : string -> option datetime.

(** X1: for every score, the label [_get_display_status] prints on the
    console is an icon, a space, and the status the method stores in the
    verdict for that score. *)
Theorem display_status_names_the_status : forall s : Z,
  exists icon, _get_display_status s = icon ++ " " ++ determine_ghost_status s.
Proof.
  intros s. unfold _get_display_status, determine_ghost_status.
  destruct (s >=? 80); [exists "👻"; reflexivity|].
  destruct (s >=? 60); [exists "🔍"; reflexivity|].
  destruct (s >=? 40); [exists "⚠️"; reflexivity|].
  destruct (s >=? 20); [exists "📊"; reflexivity|].
  exists "✅"; reflexivity.
Qed.

(** X2: whenever the body of the method returns, on any dict, its score
    and reasons agree: there are at most five reasons, each worth between
    10 and 50 points, so the score is 0 exactly when the reasons are
    empty, and a verdict without reasons is ACTIVE. *)
Theorem score_matches_reasons : forall lb_data compartment_name lb_type now,
  match analyze repr fromisoformat lb_data compartment_name lb_type now with
  | Ok v =>
      (exists reasons,
         GhostReasons v = join reasons /\
         len reasons <= 5 /\
         10 * len reasons <= GhostScore v <= 50 * len reasons) /\
      (GhostScore v = 0 <-> GhostReasons v = "") /\
      (GhostReasons v = "" -> GhostStatus v = status_label ACTIVE)
  | Raise _ => True
  end.
Proof.
  intros d c ty now.
  destruct (analyze repr fromisoformat d c ty now) as [v|x] eqn:E; [|exact I].
  destruct (analyze_tally _ _ _ _ _ _ _ E) as [n [t [N [[L [S F]] [GS [GR ST]]]]]].
  assert (Z0 : GhostScore v = 0 <-> GhostReasons v = "").
  { rewrite GS, GR, (join_empty _ F). split.
    - intros H. assert (N0 : n = 0) by lia. rewrite N0 in L.
      destruct (ghost_reasons t) as [|r rs]; [reflexivity|]. rewrite len_cons in L.
      pose proof (len_nonneg _ rs). lia.
    - intros H. rewrite H, len_nil in L. lia. }
  split; [|split].
  - exists (ghost_reasons t). rewrite L, GS. repeat split; try assumption; lia.
  - exact Z0.
  - intros H. apply Z0 in H. rewrite ST, <- GS, H. reflexivity.
Qed.

(** X3: after a scan started on a new hunter, the ghost counter shown in
    the summary is the number of suspicious load balancers kept for the
    exports, and the counter of scanned load balancers is the number of
    verdicts recorded, failed analyses included. *)
Theorem scan_counters : forall compartments,
  let h := scan_compartments repr exn_str fromisoformat [] compartments in
  total_ghosts h = len (suspicious (all_load_balancers h)) /\
  total_load_balancers h = len (all_load_balancers h) /\
  self_suspicious (scan_load_balancers repr exn_str fromisoformat new_hunter compartments)
  = suspicious (all_load_balancers h) /\
  self_all (scan_load_balancers repr exn_str fromisoformat new_hunter compartments)
  = all_load_balancers h.
Proof.
  intros cs h.
  assert (H : in_step 0 h).
  { apply scan_compartments_in_step. repeat split; cbn; try lia. constructor. }
  destruct H as [G [T _]].
  split; [exact G|]. split; [lia|].
  destruct cs; split; reflexivity.
Qed.

(** X4: after a scan started on a new hunter, a recorded verdict is among
    the suspicious ones exactly when its status is SUSPICIOUS, LIKELY
    GHOST or DEFINITE GHOST; a failed analysis, which scores 0, is never
    among them. *)
Theorem suspicious_are_the_top_tiers : forall compartments v,
  let self := scan_load_balancers repr exn_str fromisoformat new_hunter compartments in
  In v (self_all self) ->
  (In v (self_suspicious self) <->
   GhostStatus v = status_label SUSPICIOUS \/
   GhostStatus v = status_label LIKELY_GHOST \/
   GhostStatus v = status_label DEFINITE_GHOST) /\
  (GhostStatus v = status_label ANALYSIS_FAILED -> ~ In v (self_suspicious self)).
Proof.
  intros cs v self I.
  assert (H : in_step 0 (scan_compartments repr exn_str fromisoformat [] cs)).
  { apply scan_compartments_in_step. repeat split; cbn; try lia. constructor. }
  destruct H as [_ [_ C]].
  assert (A : self_all self = all_load_balancers
                (scan_compartments repr exn_str fromisoformat [] cs))
    by (subst self; destruct cs; reflexivity).
  assert (S : self_suspicious self = suspicious (self_all self))
    by (subst self; destruct cs; reflexivity).
  rewrite S. unfold suspicious. rewrite filter_In.
  rewrite A in I. rewrite Forall_forall in C. specialize (C v I).
  rewrite <- A in I.
  assert (K : (GhostScore v >=? 40) = true <->
              GhostStatus v = status_label SUSPICIOUS \/
              GhostStatus v = status_label LIKELY_GHOST \/
              GhostStatus v = status_label DEFINITE_GHOST).
  { destruct C as [[F S0]|[P L]].
    - rewrite S0, F. split; [discriminate | intros [X|[X|X]]; discriminate X].
    - rewrite L. destruct (Z.geb_spec (GhostScore v) 40) as [G|G].
      + split; [intros _ | reflexivity].
        destruct (top_tiers_from_40 _ G) as [X|[X|X]]; auto.
      + split; [discriminate|]. unfold determine_ghost_status.
        destruct (Z.geb_spec (GhostScore v) 80); [lia|].
        destruct (Z.geb_spec (GhostScore v) 60); [lia|].
        destruct (Z.geb_spec (GhostScore v) 40); [lia|].
        destruct (Z.geb_spec (GhostScore v) 20); intros [X|[X|X]]; discriminate X. }
  split.
  - rewrite <- K. intuition.
  - intros F [_ G]. apply K in G. rewrite F in G.
    destruct G as [G|[G|G]]; discriminate G.
Qed.

(** X5: the three counts of the HTML report, taken after a scan started on
    a new hunter, are ordered: definite ghosts are at most the suspicious
    load balancers, which are at most the load balancers scanned; and the
    definite ghosts are all the recorded verdicts scoring 80 or more. *)
Theorem report_totals_ordered : forall compartments,
  let self := scan_load_balancers repr exn_str fromisoformat new_hunter compartments in
  let '(total_scanned, ghosts, definite_ghosts) := report_totals self in
  0 <= definite_ghosts <= ghosts /\
  ghosts <= total_scanned /\
  definite_ghosts = len (filter (fun lb => GhostScore lb >=? 80) (self_all self)).
Proof.
  intros cs self. unfold report_totals.
  assert (S : self_suspicious self = suspicious (self_all self))
    by (subst self; destruct cs; reflexivity).
  rewrite S. generalize (self_all self). intros all.
  unfold suspicious. split; [|split].
  - split; [apply len_nonneg|]. unfold len. apply Nat2Z.inj_le. apply filter_length_le.
  - unfold len. apply Nat2Z.inj_le. apply filter_length_le.
  - f_equal. apply filter_within. intros x H.
    apply Z.geb_le in H. apply Z.geb_le. lia.
Qed.

(** X6: on a score of 40 or more, as every row of the report has, the
    style classes of the row name the tier of the status: definite for
    DEFINITE GHOST, likely for LIKELY GHOST, suspicious for SUSPICIOUS. *)
Theorem row_classes_name_the_status : forall s : Z,
  40 <= s ->
  (determine_ghost_status s = status_label DEFINITE_GHOST /\
   score_class s = "score-definite" /\ status_class s = "status-definite") \/
  (determine_ghost_status s = status_label LIKELY_GHOST /\
   score_class s = "score-likely" /\ status_class s = "status-likely") \/
  (determine_ghost_status s = status_label SUSPICIOUS /\
   score_class s = "score-suspicious" /\ status_class s = "status-suspicious").
Proof.
  intros s H. unfold determine_ghost_status, score_class, status_class.
  destruct (Z.geb_spec s 80); [left; repeat split|].
  destruct (Z.geb_spec s 60); [right; left; repeat split|].
  destruct (Z.geb_spec s 40); [right; right; repeat split | lia].
Qed.

End Extras.

(** X6 at work, on the lowest score a row can have. *)
Lemma row_classes_name_the_status_witness :
  40 <= 40 /\ score_class 40 = "score-suspicious".
Proof.
  split; [lia|].
  destruct (row_classes_name_the_status 40 ltac:(lia)) as [[H _]|[[H _]|[_ [H _]]]];
    [discriminate H | discriminate H | exact H].
Defined.

(** *** Records of the data model *)

Lemma has_key_nil : forall (A : Type) name, has_key (@nil (string * A)) name = false.
Proof. reflexivity. Qed.

(** Without backend sets every listener is dangling. *)
Lemma all_dangling_without_sets : forall ls, count (dangling []) ls = len ls.
Proof.
  intros ls. apply count_all_iff. intros k l _. unfold dangling.
  destruct (default_backend_set_name l) as [name|]; [|reflexivity].
  rewrite has_key_nil. apply orb_true_r.
Qed.

Lemma listener_rule_without_sets : forall ls t,
  ghost_score t + 35 <= ghost_score (listener_rule [] ls t).
Proof.
  intros ls t. unfold listener_rule. destruct ls as [|kv ls]; [cbn; lia|].
  rewrite all_dangling_without_sets, Z.eqb_refl. cbn. lia.
Qed.

(** Rules 2 and 3 together add at most 50: a certificate gap needs a
    listener, and then rule 2 adds at most 35. *)
Lemma listener_and_certificate_points : forall k certs sets ls t,
  ghost_score t <= ghost_score (certificate_rule k certs ls (listener_rule sets ls t))
  <= ghost_score t + 50.
Proof.
  intros k certs sets ls t. unfold certificate_rule, listener_rule.
  destruct ls as [|kv ls].
  - assert (G : certificate_gap k certs [] = false)
      by (unfold certificate_gap; destruct k, certs; reflexivity).
    rewrite G. cbn. lia.
  - destruct (certificate_gap k certs (kv :: ls));
      destruct (_ =? _); try destruct (_ >? _); cbn; lia.
Qed.

Lemma backend_set_rule_zero : forall sets t,
  ghost_score (backend_set_rule sets t) = ghost_score t <->
  sets <> [] /\ count backend_set_empty sets = 0.
Proof.
  intros sets t. unfold backend_set_rule. destruct sets as [|kv sets].
  - cbn. split; [lia | intros [H _]; congruence].
  - pose proof (count_bounds _ backend_set_empty (kv :: sets)) as B.
    pose proof (len_nonneg _ sets) as N.
    assert (L : 0 < len (kv :: sets)) by (rewrite len_cons; lia).
    destruct (Z.eqb_spec (count backend_set_empty (kv :: sets)) (len (kv :: sets))).
    + cbn [flag ghost_score]. split; [lia | intros [_ X]; lia].
    + destruct (Z.gtb_spec (count backend_set_empty (kv :: sets)) 0).
      * cbn [flag ghost_score]. split; [lia | intros [_ X]; lia].
      * split; [intros _; split; [discriminate | lia] | reflexivity].
Qed.

Lemma listener_rule_zero : forall sets ls t,
  ghost_score (listener_rule sets ls t) = ghost_score t <->
  ls <> [] /\ count (dangling sets) ls = 0.
Proof.
  intros sets ls t. unfold listener_rule. destruct ls as [|kv ls].
  - cbn. split; [lia | intros [H _]; congruence].
  - pose proof (count_bounds _ (dangling sets) (kv :: ls)) as B.
    pose proof (len_nonneg _ ls) as N.
    assert (L : 0 < len (kv :: ls)) by (rewrite len_cons; lia).
    destruct (Z.eqb_spec (count (dangling sets) (kv :: ls)) (len (kv :: ls))).
    + cbn [flag ghost_score]. split; [lia | intros [_ X]; lia].
    + destruct (Z.gtb_spec (count (dangling sets) (kv :: ls)) 0).
      * cbn [flag ghost_score]. split; [lia | intros [_ X]; lia].
      * split; [intros _; split; [discriminate | lia] | reflexivity].
Qed.

Lemma certificate_rule_zero : forall k certs ls t,
  ghost_score (certificate_rule k certs ls t) = ghost_score t <->
  certificate_gap k certs ls = false.
Proof.
  intros k certs ls t. unfold certificate_rule.
  destruct (certificate_gap k certs ls); cbn [flag ghost_score];
    split; try reflexivity; try discriminate; lia.
Qed.

Lemma lifecycle_rule_zero : forall state t,
  ghost_score (lifecycle_rule state t) = ghost_score t <->
  state = "ACTIVE" \/ state = "CREATING".
Proof.
  intros state t. unfold lifecycle_rule.
  destruct (String.eqb_spec state "ACTIVE") as [A|A];
    destruct (String.eqb_spec state "CREATING") as [C|C];
    cbn [orb flag ghost_score]; split; auto; try lia.
  intros [H|H]; contradiction.
Qed.

(** A backend set is not empty exactly when one of its backends is known
    not to be offline. *)
Lemma has_healthy_backend : forall bs,
  backend_set_empty bs = false <->
  exists b, In b (backends bs) /\ offline b = Some false.
Proof.
  intros bs. unfold backend_set_empty. destruct (backends bs) as [|b0 bks].
  - split; [discriminate | intros [b [[] _]]].
  - generalize (b0 :: bks). intros l. split.
    + intros H. induction l as [|b l IH]; [discriminate|].
      cbn [forallb] in H. apply andb_false_iff in H. destruct H as [H|H].
      * exists b. split; [now left|]. unfold backend_offline in H.
        destruct (offline b) as [[|]|]; try discriminate. reflexivity.
      * destruct (IH H) as [b' [I O]]. exists b'. split; [now right | exact O].
    + intros [b [I O]]. destruct (forallb backend_offline l) eqn:F; [|reflexivity].
      rewrite forallb_forall in F. specialize (F b I).
      unfold backend_offline in F. rewrite O in F. discriminate.
Qed.

(** A listener is not dangling exactly when its default backend set name
    is a non-empty key of the backend sets. *)
Lemma names_a_backend_set : forall sets l,
  dangling sets l = false <->
  exists name, default_backend_set_name l = Some name /\ name <> "" /\
               has_key sets name = true.
Proof.
  intros sets l. unfold dangling.
  destruct (default_backend_set_name l) as [name|].
  - split.
    + intros H. apply orb_false_iff in H. destruct H as [E H].
      exists name. split; [reflexivity|]. split.
      * now apply String.eqb_neq.
      * now apply negb_false_iff in H.
    + intros [n [[= <-] [NE K]]]. rewrite K. cbn [negb]. rewrite orb_false_r.
      now apply String.eqb_neq.
  - split; [discriminate | intros [n [H _]]; discriminate].
Qed.

(** The detail strings of an encoded record. *)
Lemma backend_details_summary : forall sets,
  backend_details (encode_map encode_backend_set sets) =
  Ok (map backend_set_summary sets).
Proof.
  induction sets as [|[k bs] sets IH].
  - reflexivity.
  - cbn [encode_map map fst snd backend_details].
    unfold encode_backend_set at 1.
    cbn [py_get dict_get dict_lookup String.eqb Ascii.eqb Bool.eqb bind py_iter].
    rewrite healthy_backends_encode. cbn [bind py_len].
    fold (encode_map encode_backend_set sets). rewrite IH. cbn [bind].
    unfold backend_set_summary, healthy_count. cbn [fst snd].
    now rewrite !len_map.
Qed.

Lemma listener_details_summary : forall repr ls,
  listener_details repr (encode_map encode_listener ls) = Ok (map listener_summary ls).
Proof.
  intros repr. induction ls as [|[k l] ls IH].
  - reflexivity.
  - cbn [encode_map map fst snd listener_details].
    fold (encode_map encode_listener ls). rewrite IH.
    unfold listener_summary, encode_listener. cbn [fst snd].
    destruct (default_backend_set_name l); reflexivity.
Qed.

(** The echoed counts and detail strings of a record. *)
Lemma analyze_encode_echo : forall repr fromisoformat r compartment_name now,
  exists v,
    analyze repr fromisoformat (encode r) compartment_name (kind_label (lb_type r)) now
      = Ok v /\
    BackendSetCount v = len (backend_sets r) /\
    ListenerCount v = len (listeners r) /\
    CertificateCount v = len (certificates r) /\
    BackendSetDetails v = join (map backend_set_summary (backend_sets r)) /\
    ListenerDetails v = join (map listener_summary (listeners r)).
Proof.
  intros repr f r c now. unfold analyze.
  rewrite get_backend_sets, get_listeners, get_certificates, get_lifecycle_state,
    get_freeform_tags, get_defined_tags.
  rewrite check_backend_sets_encode. cbn [bind].
  rewrite check_listeners_encode. cbn [bind].
  rewrite check_ssl_certificates_encode. cbn [bind].
  unfold encode_backend_sets, encode_listeners.
  change (encode_tags (freeform_tags r)) with (PDict (encode_map PStr (freeform_tags r))).
  cbn [py_items bind py_len].
  rewrite backend_details_summary, listener_details_summary.
  destruct (defined_tag_entries_encode repr (defined_tags r)) as [es Ed]. rewrite Ed.
  cbn [bind]. eexists. split; [reflexivity|]. cbn.
  unfold encode_map. rewrite !len_map. repeat split; reflexivity.
Qed.

Section RecordExtras.

Variable repr : pyval -> string.
Variable exn_str : exn -> string.
Variable fromisoformat : string -> option datetime.

(** X7: a load balancer without backend sets scores at least 85 (50 for
    the missing sets, and 40 for missing listeners or 35 because every
    listener is then dangling) and is therefore always a DEFINITE GHOST. *)
Theorem no_backend_sets_is_definite_ghost : forall r compartment_name now,
  backend_sets r = [] ->
  let v := classify repr exn_str fromisoformat r compartment_name now in
  85 <= GhostScore v /\ GhostStatus v = status_label DEFINITE_GHOST.
Proof.
  intros r c now E v.
  destruct (analyze_encode repr fromisoformat r c now) as [v' [A [S [_ [T _]]]]].
  assert (V : v = v').
  { subst v. unfold classify, analyze_load_balancer_health. now rewrite A. }
  rewrite V, T, S.
  assert (B : 85 <= ghost_score (rules fromisoformat now r)).
  { unfold rules, rules_1_to_4. rewrite E.
    set (t2 := listener_rule [] (listeners r) (backend_set_rule [] start)).
    assert (B2 : 85 <= ghost_score t2).
    { pose proof (listener_rule_without_sets (listeners r) (backend_set_rule [] start)).
      cbn in H. exact H. }
    destruct (certificate_rule_points (lb_type r) (certificates r) (listeners r) t2)
      as [p3 [I3 E3]].
    destruct (lifecycle_rule_points (state_of r)
                (certificate_rule (lb_type r) (certificates r) (listeners r) t2))
      as [p4 [I4 E4]].
    destruct (stale_rule_points (age_in_days fromisoformat now (creation_time r))
                (lifecycle_rule (state_of r)
                   (certificate_rule (lb_type r) (certificates r) (listeners r) t2)))
      as [p5 [I5 E5]].
    rewrite E5, E4, E3. cbn [In] in I3, I4, I5. lia. }
  split; [exact B|].
  unfold determine_ghost_status.
  destruct (Z.geb_spec (ghost_score (rules fromisoformat now r)) 80); [reflexivity | lia].
Qed.

(** X8: the score of a record never exceeds 140, and 140 is reached: the
    score shown as "out of 100" in the summary can be above 100. *)
Theorem score_at_most_140 :
  (forall r compartment_name now,
     GhostScore (classify repr exn_str fromisoformat r compartment_name now) <= 140) /\
  GhostScore (classify sample_repr sample_exn_str sample_fromisoformat
                worst "root" hundred_days_later) = 140.
Proof.
  split; [|reflexivity].
  intros r c now.
  destruct (analyze_encode repr fromisoformat r c now) as [v [A [S _]]].
  unfold classify, analyze_load_balancer_health. rewrite A, S.
  unfold rules, rules_1_to_4.
  set (t1 := backend_set_rule (backend_sets r) start).
  destruct (backend_set_rule_points (backend_sets r) start) as [p1 [I1 E1]].
  fold t1 in E1. change (ghost_score start) with 0 in E1.
  pose proof (listener_and_certificate_points (lb_type r) (certificates r)
                (backend_sets r) (listeners r) t1) as B23.
  set (t3 := certificate_rule _ _ _ _) in *.
  destruct (lifecycle_rule_points (state_of r) t3) as [p4 [I4 E4]].
  destruct (stale_rule_points (age_in_days fromisoformat now (creation_time r))
              (lifecycle_rule (state_of r) t3)) as [p5 [I5 E5]].
  rewrite E5, E4. cbn [In] in I1, I4, I5. lia.
Qed.

(** X9: a record scores 0 exactly when it has a backend set, each of its
    backend sets has a backend known not to be offline, it has a listener,
    each of its listeners names an existing backend set, there is no
    certificate gap, and its state is ACTIVE or CREATING. *)
Theorem score_zero_iff_clean : forall r compartment_name now,
  GhostScore (classify repr exn_str fromisoformat r compartment_name now) = 0 <->
  backend_sets r <> [] /\
  (forall name bs, In (name, bs) (backend_sets r) ->
     exists b, In b (backends bs) /\ offline b = Some false) /\
  listeners r <> [] /\
  (forall name l, In (name, l) (listeners r) ->
     exists target, default_backend_set_name l = Some target /\ target <> "" /\
                    has_key (backend_sets r) target = true) /\
  certificate_gap (lb_type r) (certificates r) (listeners r) = false /\
  (state_of r = "ACTIVE" \/ state_of r = "CREATING").
Proof.
  intros r c now.
  destruct (analyze_encode repr fromisoformat r c now) as [v [A [S _]]].
  unfold classify, analyze_load_balancer_health. rewrite A, S.
  unfold rules, rules_1_to_4.
  set (t1 := backend_set_rule (backend_sets r) start).
  set (t2 := listener_rule (backend_sets r) (listeners r) t1).
  set (t3 := certificate_rule (lb_type r) (certificates r) (listeners r) t2).
  set (t4 := lifecycle_rule (state_of r) t3).
  destruct (backend_set_rule_points (backend_sets r) start) as [p1 [I1 E1]].
  destruct (listener_rule_points (backend_sets r) (listeners r) t1) as [p2 [I2 E2]].
  destruct (certificate_rule_points (lb_type r) (certificates r) (listeners r) t2)
    as [p3 [I3 E3]].
  destruct (lifecycle_rule_points (state_of r) t3) as [p4 [I4 E4]].
  destruct (stale_rule_points (age_in_days fromisoformat now (creation_time r)) t4)
    as [p5 [I5 E5]].
  fold t1 in E1. fold t2 in E2. fold t3 in E3. fold t4 in E4, E5.
  change (ghost_score start) with 0 in E1.
  pose proof (backend_set_rule_zero (backend_sets r) start) as Z1. fold t1 in Z1.
  change (ghost_score start) with 0 in Z1.
  pose proof (listener_rule_zero (backend_sets r) (listeners r) t1) as Z2. fold t2 in Z2.
  pose proof (certificate_rule_zero (lb_type r) (certificates r) (listeners r) t2) as Z3.
  fold t3 in Z3.
  pose proof (lifecycle_rule_zero (state_of r) t3) as Z4. fold t4 in Z4.
  assert (P5 : ghost_score t4 = 0 -> p5 = 0).
  { intros H. unfold stale_rule in E5.
    destruct (age_in_days fromisoformat now (creation_time r)) as [d|]; [|lia].
    rewrite H in E5. change (0 >? 40) with false in E5.
    rewrite andb_false_r in E5. lia. }
  cbn [In] in I1, I2, I3, I4, I5.
  rewrite (count_none_iff _ backend_set_empty) in Z1.
  rewrite (count_none_iff _ (dangling (backend_sets r))) in Z2.
  split.
  - intros H.
    assert (ghost_score t1 = 0 /\ ghost_score t2 = ghost_score t1 /\
            ghost_score t3 = ghost_score t2 /\ ghost_score t4 = ghost_score t3)
      as [H1 [H2 [H3 H4]]] by lia.
    apply Z1 in H1. apply Z2 in H2. apply Z3 in H3. apply Z4 in H4.
    destruct H1 as [N1 C1]. destruct H2 as [N2 C2].
    repeat split; try assumption.
    + intros name bs I. apply has_healthy_backend. exact (C1 name bs I).
    + intros name l I. apply names_a_backend_set. exact (C2 name l I).
  - intros [N1 [C1 [N2 [C2 [G S4]]]]].
    assert (H1 : ghost_score t1 = 0).
    { apply Z1. split; [exact N1|]. intros name bs I.
      apply has_healthy_backend. exact (C1 name bs I). }
    assert (H2 : ghost_score t2 = ghost_score t1).
    { apply Z2. split; [exact N2|]. intros name l I.
      apply names_a_backend_set. exact (C2 name l I). }
    assert (H3 : ghost_score t3 = ghost_score t2) by now apply Z3.
    assert (H4 : ghost_score t4 = ghost_score t3) by now apply Z4.
    assert (p5 = 0) by (apply P5; lia). lia.
Qed.

(** X10: the counts and detail strings a verdict echoes are those of the
    record: the three counts are the sizes of its maps, and the details
    list, in the order of the record, each backend set as
    "name:healthy/total healthy" and each listener as
    "name:protocol:port->>target", "None" standing for a missing
    target. *)
Theorem verdict_echoes_record : forall r compartment_name now,
  let v := classify repr exn_str fromisoformat r compartment_name now in
  BackendSetCount v = len (backend_sets r) /\
  ListenerCount v = len (listeners r) /\
  CertificateCount v = len (certificates r) /\
  BackendSetDetails v = join (map backend_set_summary (backend_sets r)) /\
  ListenerDetails v = join (map listener_summary (listeners r)) /\
  (forall name bs, In (name, bs) (backend_sets r) ->
     0 <= healthy_count bs <= len (backends bs)).
Proof.
  intros r c now v.
  destruct (analyze_encode_echo repr fromisoformat r c now)
    as [v' [A [B [L [C [BD LD]]]]]].
  assert (V : v = v').
  { subst v. unfold classify, analyze_load_balancer_health. now rewrite A. }
  rewrite V. repeat split; try assumption.
  - apply len_nonneg.
  - unfold healthy_count, len. apply Nat2Z.inj_le. apply filter_length_le.
Qed.

End RecordExtras.

(** *** The scanner's dicts *)

Lemma encode_map_assoc_set : forall (A : Type) (enc : A -> pyval) m k v,
  encode_map enc (assoc_set m k v) = assoc_set (encode_map enc m) k (enc v).
Proof.
  intros A enc m k v. induction m as [|[k' v'] m IH]; [reflexivity|].
  cbn [assoc_set encode_map map fst snd].
  destruct (k' =? k)%string; cbn [map fst snd]; [reflexivity|].
  unfold encode_map in IH. now rewrite IH.
Qed.

Lemma encode_map_assoc_of : forall (A : Type) (enc : A -> pyval) pairs,
  encode_map enc (assoc_of pairs) =
  assoc_of (map (fun kv => (fst kv, enc (snd kv))) pairs).
Proof.
  intros A enc pairs. unfold assoc_of.
  change (@nil (string * pyval)) with (encode_map enc []).
  generalize (@nil (string * A)).
  induction pairs as [|[k v] pairs IH]; intros m; [reflexivity|].
  cbn [fold_left map fst snd]. rewrite IH. now rewrite encode_map_assoc_set.
Qed.

Lemma classic_backend_set_entry_encode : forall bs,
  encode_backend_set (classic_backend_set_of bs) = classic_backend_set_entry bs.
Proof.
  intros bs. unfold encode_backend_set, classic_backend_set_of, classic_backend_set_entry.
  cbn [backends]. now rewrite map_map.
Qed.

Lemma network_backend_set_entry_encode : forall bks,
  encode_backend_set (network_backend_set_of bks) = network_backend_set_entry bks.
Proof.
  intros bks. unfold encode_backend_set, network_backend_set_of, network_backend_set_entry.
  cbn [backends]. now rewrite map_map.
Qed.

Lemma listener_entry_encode : forall l, encode_listener (listener_of l) = listener_entry l.
Proof. reflexivity. Qed.

Lemma listeners_represented : forall ls,
  PDict (assoc_of (map (fun l => (sl_name l, listener_entry l)) ls)) =
  encode_listeners (assoc_of (map (fun l => (sl_name l, listener_of l)) ls)).
Proof.
  intros ls. unfold encode_listeners. rewrite encode_map_assoc_of, map_map.
  reflexivity.
Qed.

Lemma lb_dict_represents : forall str_datetime lb_details,
  represents (lb_dict str_datetime lb_details) (classic_record str_datetime lb_details).
Proof.
  intros sd d. unfold represents, lb_dict, dict_get.
  cbn [dict_lookup String.eqb Ascii.eqb Bool.eqb classic_record backend_sets listeners
       certificates freeform_tags defined_tags time_created state_of lifecycle_state].
  repeat split.
  - unfold encode_backend_sets. rewrite encode_map_assoc_of, map_map. cbn [fst snd].
    do 2 f_equal. apply map_ext. intros bs.
    now rewrite classic_backend_set_entry_encode.
  - apply listeners_represented.
  - destruct (cd_time_created d); reflexivity.
Qed.

Lemma nlb_dict_represents : forall str_datetime nlb_details,
  represents (nlb_dict str_datetime nlb_details) (network_record str_datetime nlb_details).
Proof.
  intros sd d. unfold represents, nlb_dict, dict_get.
  cbn [dict_lookup String.eqb Ascii.eqb Bool.eqb network_record backend_sets listeners
       certificates freeform_tags defined_tags time_created state_of lifecycle_state].
  repeat split.
  - unfold encode_backend_sets. rewrite encode_map_assoc_of, map_map. cbn [fst snd].
    do 2 f_equal. apply map_ext. intros [k bks]. cbn [fst snd].
    now rewrite network_backend_set_entry_encode.
  - apply listeners_represented.
  - destruct (nd_time_created d); reflexivity.
Qed.

Lemma check_recent_activity_represented : forall fromisoformat now r t,
  check_recent_activity fromisoformat now
    (match time_created r with Some s => PStr s | None => PNone end) t =
  stale_rule (age_in_days fromisoformat now (creation_time r)) t.
Proof.
  intros f now r t. unfold check_recent_activity, creation_time.
  destruct (time_created r) as [s|]; [|reflexivity].
  cbn [truthy]. destruct (s =? "")%string; reflexivity.
Qed.

(** The method on a dict that represents a record: the body does not
    raise, and the verdict is scored as the record is. *)
Lemma analyze_represented : forall repr fromisoformat d r compartment_name now,
  represents d r ->
  exists v,
    analyze repr fromisoformat d compartment_name (kind_label (lb_type r)) now = Ok v /\
    GhostScore v = ghost_score (rules fromisoformat now r) /\
    GhostReasons v = join (ghost_reasons (rules fromisoformat now r)) /\
    GhostStatus v = determine_ghost_status (ghost_score (rules fromisoformat now r)) /\
    BackendSetDetails v = join (map backend_set_summary (backend_sets r)) /\
    ListenerDetails v = join (map listener_summary (listeners r)).
Proof.
  intros repr f d r c now [B [L [C [S [T [F D]]]]]]. unfold analyze.
  rewrite B, L, C, S, T, F, D.
  rewrite check_backend_sets_encode. cbn [bind].
  rewrite check_listeners_encode. cbn [bind].
  rewrite check_ssl_certificates_encode. cbn [bind].
  rewrite check_lifecycle_state_encode, check_recent_activity_represented.
  fold start. fold (rules_1_to_4 r). fold (rules f now r).
  unfold encode_backend_sets, encode_listeners.
  change (encode_tags (freeform_tags r)) with (PDict (encode_map PStr (freeform_tags r))).
  cbn [py_items bind py_len].
  rewrite backend_details_summary, listener_details_summary.
  destruct (defined_tag_entries_encode repr (defined_tags r)) as [es Ed]. rewrite Ed.
  cbn [bind]. eexists. split; [reflexivity|]. cbn. repeat split; reflexivity.
Qed.

(** Without backend sets the five rules reach at least 85. *)
Lemma rules_without_sets : forall fromisoformat now r,
  backend_sets r = [] -> 85 <= ghost_score (rules fromisoformat now r).
Proof.
  intros f now r E. unfold rules, rules_1_to_4. rewrite E.
  set (t2 := listener_rule [] (listeners r) (backend_set_rule [] start)).
  assert (B2 : 85 <= ghost_score t2).
  { pose proof (listener_rule_without_sets (listeners r) (backend_set_rule [] start)) as H.
    cbn in H. exact H. }
  destruct (certificate_rule_points (lb_type r) (certificates r) (listeners r) t2)
    as [p3 [I3 E3]].
  destruct (lifecycle_rule_points (state_of r)
              (certificate_rule (lb_type r) (certificates r) (listeners r) t2))
    as [p4 [I4 E4]].
  destruct (stale_rule_points (age_in_days f now (creation_time r))
              (lifecycle_rule (state_of r)
                 (certificate_rule (lb_type r) (certificates r) (listeners r) t2)))
    as [p5 [I5 E5]].
  rewrite E5, E4, E3. cbn [In] in I3, I4, I5. lia.
Qed.

(** Every value put in a dict by assignments is one of the values
    assigned. *)
Lemma assoc_of_values : forall (A : Type) (P : A -> Prop) (pairs : list (string * A)),
  (forall k x, In (k, x) pairs -> P x) ->
  forall k x, In (k, x) (assoc_of pairs) -> P x.
Proof.
  intros A P pairs. unfold assoc_of.
  assert (G : forall m, (forall k x, In (k, x) m -> P x) ->
              (forall k x, In (k, x) pairs -> P x) ->
              forall k x, In (k, x) (fold_left (fun m kv => assoc_set m (fst kv) (snd kv))
                                       pairs m) -> P x).
  { induction pairs as [|[k0 x0] pairs IH]; intros m M H k x I; cbn [fold_left] in I.
    - exact (M k x I).
    - apply (IH (assoc_set m k0 x0)) with (k := k); [| |exact I].
      + intros k' x' I'. cbn [fst snd] in I'.
        clear -M H I'. induction m as [|[k1 x1] m IHm]; cbn [assoc_set] in I'.
        * destruct I' as [[= <- <-]|[]]. apply (H k0 x0). now left.
        * destruct (k1 =? k0)%string.
          -- destruct I' as [[= <- <-]|I'].
             ++ apply (H k0 x0). now left.
             ++ apply (M k' x'). now right.
          -- destruct I' as [[= <- <-]|I'].
             ++ apply (M k1 x1). now left.
             ++ apply IHm; [|exact I']. intros k2 x2 I2. apply (M k2 x2). now right.
      + intros k' x' I'. apply (H k' x'). now right. }
  intros H. apply G; [intros k x [] | exact H].
Qed.

Lemma encode_represents : forall r, represents (encode r) r.
Proof.
  intros r. unfold represents.
  rewrite get_backend_sets, get_listeners, get_certificates, get_lifecycle_state,
    get_time_created, get_freeform_tags, get_defined_tags.
  repeat split.
Qed.

(** Two dicts that represent the same record get the same score, status,
    reasons and detail strings, and neither makes the body raise. *)
Lemma represented_alike : forall repr exn_str fromisoformat d r compartment_name now,
  represents d r ->
  let v := analyze_load_balancer_health repr exn_str fromisoformat
             d compartment_name (kind_label (lb_type r)) now in
  let w := classify repr exn_str fromisoformat r compartment_name now in
  GhostStatus v <> status_label ANALYSIS_FAILED /\
  GhostScore v = GhostScore w /\
  GhostStatus v = GhostStatus w /\
  GhostReasons v = GhostReasons w /\
  BackendSetDetails v = BackendSetDetails w /\
  ListenerDetails v = ListenerDetails w.
Proof.
  intros repr e f d r c now R v w.
  destruct (analyze_represented repr f d r c now R) as [v' [A [S [G [T [BD LD]]]]]].
  destruct (analyze_represented repr f _ r c now (encode_represents r))
    as [w' [A' [S' [G' [T' [BD' LD']]]]]].
  assert (V : v = v').
  { subst v. unfold analyze_load_balancer_health. now rewrite A. }
  assert (W : w = w').
  { subst w. unfold classify, analyze_load_balancer_health. now rewrite A'. }
  rewrite V, W. repeat split; try congruence.
  rewrite T.
  destruct (status_ladder_tiers (ghost_score (rules f now r))) as [tier [NF ->]].
  destruct tier; try discriminate. congruence.
Qed.

Section ScannerExtras.

Variable repr : pyval -> string.
Variable exn_str : exn -> string.
Variable fromisoformat : string -> option datetime.
Variable str_datetime : datetime -> string.

(** X11: the dict the scanner builds from the details of a Classic load
    balancer is analysed without error, and its score, status, reasons
    and detail strings are those of the record of the data model with the
    same contents (an absent map read as empty, the creation time as its
    text). *)
Theorem classic_dict_scored_as_record : forall lb_details compartment_name now,
  let v := analyze_load_balancer_health repr exn_str fromisoformat
             (lb_dict str_datetime lb_details) compartment_name "Classic" now in
  let w := classify repr exn_str fromisoformat
             (classic_record str_datetime lb_details) compartment_name now in
  GhostStatus v <> status_label ANALYSIS_FAILED /\
  GhostScore v = GhostScore w /\
  GhostStatus v = GhostStatus w /\
  GhostReasons v = GhostReasons w /\
  BackendSetDetails v = BackendSetDetails w /\
  ListenerDetails v = ListenerDetails w.
Proof.
  intros d c now.
  exact (represented_alike repr exn_str fromisoformat _ _ c now
           (lb_dict_represents str_datetime d)).
Qed.

(** X12: the dict the scanner builds for a Network load balancer, from
    whatever the two listings recorded before a call raised, is analysed
    without error and scored as the record of the data model with the
    same contents.  Since the scanner marks every backend as not offline,
    a backend set of such a record is empty exactly when it has no
    backend. *)
Theorem network_dict_scored_as_record : forall nlb_details compartment_name now,
  let v := analyze_load_balancer_health repr exn_str fromisoformat
             (nlb_dict str_datetime nlb_details) compartment_name "Network" now in
  let r := network_record str_datetime nlb_details in
  let w := classify repr exn_str fromisoformat r compartment_name now in
  (GhostStatus v <> status_label ANALYSIS_FAILED /\
   GhostScore v = GhostScore w /\
   GhostStatus v = GhostStatus w /\
   GhostReasons v = GhostReasons w /\
   BackendSetDetails v = BackendSetDetails w /\
   ListenerDetails v = ListenerDetails w) /\
  (forall name bs, In (name, bs) (backend_sets r) ->
     (backend_set_empty bs = true <-> backends bs = [])).
Proof.
  intros d c now v r w. split.
  - exact (represented_alike repr exn_str fromisoformat _ _ c now
             (nlb_dict_represents str_datetime d)).
  - intros name bs I.
    assert (P : forall b, In b (backends bs) -> offline b = Some false).
    { revert name bs I. unfold r, network_record. cbn [backend_sets].
      apply (assoc_of_values BackendSet
               (fun bs => forall b, In b (backends bs) -> offline b = Some false)).
      intros k x I b B. apply in_map_iff in I. destruct I as [[k' bks] [[= _ <-] _]].
      unfold network_backend_set_of in B. cbn [backends] in B.
      apply in_map_iff in B. destruct B as [sb [<- _]]. reflexivity. }
    unfold backend_set_empty. destruct (backends bs) as [|b bks]; [tauto|].
    split; [|discriminate].
    intros F. rewrite forallb_forall in F.
    specialize (F b (or_introl eq_refl)). unfold backend_offline in F.
    rewrite (P b (or_introl eq_refl)) in F. discriminate.
Qed.

(** X13: when the listing of the backend sets of a Network load balancer
    raises, or the listing of the backends of its first set does, the
    dict holds no backend set, and the load balancer scores at least 85
    and is reported as a DEFINITE GHOST. *)
Theorem unlisted_backend_sets_is_definite_ghost : forall nlb_details compartment_name now,
  nd_backend_sets nlb_details = None \/
  (exists name rest, nd_backend_sets nlb_details = Some ((name, None) :: rest)) ->
  let v := analyze_load_balancer_health repr exn_str fromisoformat
             (nlb_dict str_datetime nlb_details) compartment_name "Network" now in
  dict_get (nlb_dict str_datetime nlb_details) "backend_sets" PNone = PDict [] /\
  85 <= GhostScore v /\
  GhostStatus v = status_label DEFINITE_GHOST.
Proof.
  intros d c now H v.
  assert (E : recorded (or_empty (nd_backend_sets d)) = []).
  { destruct H as [-> | [name [rest ->]]]; reflexivity. }
  set (r := network_record str_datetime d).
  assert (B : backend_sets r = []).
  { unfold r, network_record. cbn [backend_sets]. now rewrite E. }
  destruct (analyze_represented repr fromisoformat _ r c now
              (nlb_dict_represents str_datetime d)) as [v' [A [S [_ [T _]]]]].
  assert (V : v = v').
  { subst v. unfold analyze_load_balancer_health.
    change "Network" with (kind_label (lb_type r)). now rewrite A. }
  pose proof (rules_without_sets fromisoformat now r B) as R.
  split; [|split].
  - unfold nlb_dict, dict_get. cbn [dict_lookup String.eqb Ascii.eqb Bool.eqb].
    now rewrite E.
  - rewrite V, S. exact R.
  - rewrite V, T. unfold determine_ghost_status.
    destruct (Z.geb_spec (ghost_score (rules fromisoformat now r)) 80);
      [reflexivity | lia].
Qed.

(** X14: [get_all_compartments] never returns an empty description.  When
    ids are given, it returns exactly the compartments that answered and
    are ACTIVE.  When none is given, it returns nothing if either call
    raised, and otherwise the root, whatever its state, followed by the
    ACTIVE compartments of the tenancy. *)
Theorem compartments_returned : forall requested root children,
  (forall info, In info (get_all_compartments requested root children) ->
     ci_description info <> "") /\
  (requested <> [] ->
   forall info,
     In info (get_all_compartments requested root children) <->
     exists c, In (Some c) requested /\ sc_lifecycle_state c = "ACTIVE" /\
               info = compartment_entry "No description" c) /\
  (requested = [] ->
   (get_all_compartments requested root children = [] <->
    root = None \/ children = None) /\
   (forall root_comp all_compartments,
      root = Some root_comp -> children = Some all_compartments ->
      get_all_compartments requested root children =
      compartment_entry "Root compartment" root_comp
      :: map (compartment_entry "No description") (filter is_active all_compartments))).
Proof.
  intros requested root children.
  assert (D : forall default c, default <> "" ->
              ci_description (compartment_entry default c) <> "").
  { intros default c N. unfold compartment_entry. cbn [ci_description].
    destruct (sc_description c) as [text|]; [|exact N].
    destruct (String.eqb_spec text ""); [exact N | assumption]. }
  assert (M : forall info,
            In info (requested_compartments requested) <->
            exists c, In (Some c) requested /\ sc_lifecycle_state c = "ACTIVE" /\
                      info = compartment_entry "No description" c).
  { intros info. induction requested as [|[c|] rest IH]; cbn [requested_compartments].
    - split; [intros [] | intros [c [[] _]]].
    - unfold is_active at 1. destruct (String.eqb_spec (sc_lifecycle_state c) "ACTIVE").
      + cbn [In]. rewrite IH. split.
        * intros [<- | [c' [I [S E]]]].
          -- exists c. repeat split; auto.
          -- exists c'. repeat split; auto.
        * intros [c' [[[= <-] | I] [S E]]]; [left; now symmetry|].
          right. exists c'. auto.
      + rewrite IH. split.
        * intros [c' [I [S E]]]. exists c'. cbn [In]. auto.
        * intros [c' [[[= <-] | I] [S E]]]; [contradiction|]. exists c'. auto.
    - rewrite IH. split.
      + intros [c' [I [S E]]]. exists c'. cbn [In]. auto.
      + intros [c' [[I | I] [S E]]]; [discriminate|]. exists c'. auto. }
  split; [|split].
  - intros info I. unfold get_all_compartments in I. destruct requested as [|x rest].
    + unfold discovered_compartments in I.
      destruct root as [rc|]; [|destruct I]. destruct children as [cs|]; [|destruct I].
      destruct I as [<- | I]; [apply D; discriminate|].
      apply in_map_iff in I. destruct I as [c [<- _]]. apply D. discriminate.
    + apply M in I. destruct I as [c [_ [_ ->]]]. apply D. discriminate.
  - intros NE info. unfold get_all_compartments.
    destruct requested as [|x rest]; [congruence | apply M].
  - intros ->. unfold get_all_compartments, discovered_compartments. split.
    + destruct root, children; split; auto; try discriminate;
        intros [H|H]; discriminate.
    + intros rc cs -> ->. reflexivity.
Qed.

End ScannerExtras.

(** X4 at work: the failed analysis of the sample compartment is recorded
    and is not among the suspicious verdicts. *)
Lemma suspicious_are_the_top_tiers_witness :
  In (failed_analysis "nlb" "prod" "Network" "timeout"
        "ocid1.networkloadbalancer.oc1..example")
     (self_all (scan_load_balancers sample_repr sample_exn_str sample_fromisoformat
                  new_hunter [sample_compartment])) /\
  ~ In (failed_analysis "nlb" "prod" "Network" "timeout"
          "ocid1.networkloadbalancer.oc1..example")
       (self_suspicious (scan_load_balancers sample_repr sample_exn_str
                           sample_fromisoformat new_hunter [sample_compartment])).
Proof.
  assert (I : In (failed_analysis "nlb" "prod" "Network" "timeout"
                    "ocid1.networkloadbalancer.oc1..example")
                 (self_all (scan_load_balancers sample_repr sample_exn_str
                              sample_fromisoformat new_hunter [sample_compartment])))
    by (right; left; reflexivity).
  split; [exact I|].
  apply (suspicious_are_the_top_tiers sample_repr sample_exn_str sample_fromisoformat
           [sample_compartment] _ I).
  reflexivity.
Defined.

(** X7 at work: the bare Classic load balancer. *)
Lemma no_backend_sets_is_definite_ghost_witness :
  backend_sets (bare Classic) = [] /\
  GhostStatus (classify sample_repr sample_exn_str sample_fromisoformat
                 (bare Classic) "root" 0) = status_label DEFINITE_GHOST.
Proof.
  split; [reflexivity|].
  apply (no_backend_sets_is_definite_ghost sample_repr sample_exn_str
           sample_fromisoformat (bare Classic) "root" 0 eq_refl).
Defined.

(** X13 at work: a Network load balancer whose backend sets could not be
    listed. *)
Lemma unlisted_backend_sets_is_definite_ghost_witness :
  nd_backend_sets unlisted = None /\
  GhostStatus (analyze_load_balancer_health sample_repr sample_exn_str
                 sample_fromisoformat (nlb_dict sample_str_datetime unlisted)
                 "prod" "Network" 0) = status_label DEFINITE_GHOST.
Proof.
  split; [reflexivity|].
  apply (unlisted_backend_sets_is_definite_ghost sample_repr sample_exn_str
           sample_fromisoformat sample_str_datetime unlisted "prod" 0
           (or_introl eq_refl)).
Defined.
